(** * kaleidoscope: a redirector to Arch Linux mirrors

    A shallow embedding of the two variants of the program found in the
    repository, [src/kaleidoscope.go] (module [Kaleidoscope]) and
    [src/unnamed/part_000] (module [Part000]), and the properties of its
    snapshot builder, refresh loop, selectors and redirect handlers.

    Conventions of the embedding:
    - Go's [float64] is Rocq's primitive binary64 [float]; [a >= b] is
      [b <=? a], [a < b] is [a <? b] (both false on NaN, as in Go);
    - Go's [int] is [Z] (no arithmetic here can leave the 64-bit range:
      the only operations are counters bounded by a slice length);
    - Go strings are [string] (sequences of bytes);
    - [[]*Mirror] is [list Mirror]: the mirrors are never mutated after
      decoding, so a pointer is represented by the record it points to
      (a JSON [null] inside the [urls] array is outside this model);
    - [map[string][]*Mirror] is [gmap string (list Mirror)];
    - the network, the upstream payload, the random source and the HTTP
      request are inputs; the calls made on the [http.ResponseWriter] are
      the output of a handler. *)

From Stdlib Require Import ZArith List String Ascii Bool Lia Permutation Sorted.
From Stdlib Require Import Floats.
From stdpp Require Import base option gmap strings.

Import ListNotations.
Local Open Scope string_scope.
Local Open Scope Z_scope.
Local Open Scope list_scope.

(** * Part I: the embedding *)

(** ** IEEE 754 comparisons on [float64] *)

Module Float64.

(** Go's [a >= b]. *)
Definition geb (a b : float) : bool := (b <=? a)%float.

(** Go's [a < b]. *)
Definition ltb (a b : float) : bool := (a <? b)%float.

(** Go's [a == b]. *)
Definition eqb (a b : float) : bool := (a =? b)%float.

Definition is_nan (a : float) : bool := PrimFloat.is_nan a.

(** A rank that orders the values other than NaN as [SFcompare] does. *)
Definition rank (a : spec_float) : Z * (Z * Z) :=
  match a with
  | S754_nan => (0, (0, 0))
  | S754_zero _ => (0, (0, 0))
  | S754_infinity true => (-2, (0, 0))
  | S754_infinity false => (2, (0, 0))
  | S754_finite true m e => (-1, (- e, - Z.pos m))
  | S754_finite false m e => (1, (e, Z.pos m))
  end.

Definition rank_lt (x y : Z * (Z * Z)) : Prop :=
  fst x < fst y \/
  (fst x = fst y /\ (fst (snd x) < fst (snd y) \/
                     (fst (snd x) = fst (snd y) /\ snd (snd x) < snd (snd y)))).

End Float64.

(** ** The data model shared by both variants *)

(** [type Mirror struct]; [time.Time] is an instant counted in [Z]. *)
Record Mirror := {
  Protocol    : string;
  URL         : string;
  Country     : string;
  LastSync    : option Z;
  Delay       : Z;
  Score       : float;
  Completion  : float;
  CountryCode : string;
  DurStdDev   : float;
  DurAvg      : float
}.

(** Results of fallible Go functions, [(T, error)]. *)
Inductive result (A : Type) : Type :=
| Ok (a : A)
| Err (e : string).
Arguments Ok {A} a.
Arguments Err {A} e.

(** ** The parts of Go's standard library the program calls *)

Module Go.

(** *** [strings] *)

Definition is_lower (a : ascii) : bool :=
  let n := nat_of_ascii a in (97 <=? n)%nat && (n <=? 122)%nat.

Definition is_upper (a : ascii) : bool :=
  let n := nat_of_ascii a in (65 <=? n)%nat && (n <=? 90)%nat.

Definition upper_ascii (a : ascii) : ascii :=
  if is_lower a then ascii_of_nat (nat_of_ascii a - 32) else a.

(** [strings.ToUpper] on ASCII text (the program applies it to two
    ASCII letters only). *)
Fixpoint ToUpper (s : string) : string :=
  match s with
  | EmptyString => EmptyString
  | String a r => String (upper_ascii a) (ToUpper r)
  end.

(** [s[n:]] *)
Fixpoint slice_from (n : nat) (s : string) : string :=
  match n, s with
  | O, _ => s
  | S n', String _ r => slice_from n' r
  | S _, EmptyString => EmptyString
  end.

(** [strings.TrimPrefix] *)
Definition TrimPrefix (s pre : string) : string :=
  if String.prefix pre s then slice_from (String.length pre) s else s.

(** *** [sort]

    [sort.Interface] over a slice: only [Less] depends on the instance,
    [Len] and [Swap] are those of the slice. *)
Definition Less (A : Type) := A -> A -> bool.

(** [sort.Reverse]: [Less(i, j)] of the reversed order is [Less(j, i)]. *)
Definition Reverse {A} (less : Less A) : Less A := fun x y => less y x.

(** The inner loop of [insertionSort]:
    [for j := i; j > a && data.Less(j, j-1); j-- { data.Swap(j, j-1) }].
    [before] is the part of the slice left of position [j], last element
    first; the result is that part with [x] put in place, in the same
    representation. *)
Fixpoint sink {A} (less : Less A) (x : A) (before : list A) : list A :=
  match before with
  | [] => [x]
  | y :: before' =>
      if less x y then y :: sink less x before' else x :: before
  end.

(** Two elements that [less] does not order: equal keys. *)
Definition unordered {A} (less : Less A) (x y : A) : bool :=
  negb (less x y) && negb (less y x).

(** The invariant of [insertionSort]: [before] is sorted, that is, none
    of its elements is [less] than one that is earlier in the slice
    (later in [before]). *)
Definition sorted_before {A} (less : Less A) (before : list A) : Prop :=
  StronglySorted (fun later earlier => less later earlier = false) before.

(** [insertionSort(data, 0, n)]: the outer loop over [i]. *)
Definition insertionSort {A} (less : Less A) (data : list A) : list A :=
  rev (fold_left (fun before x => sink less x before) data []).

(** [sort.Stable]. For at most 20 elements [sort.Stable] is exactly
    [insertionSort]; for longer slices it insertion-sorts blocks of 20 and
    merges them in place with [symMerge]. Whenever [Less] is a strict weak
    order the outcome is the unique stable sorted arrangement (see
    [Stable_characterised] below), which is the one computed here. *)
Definition Stable {A} (less : Less A) (data : list A) : list A :=
  insertionSort less data.

(** *** [path] *)

(** The elements of a path between slashes, [cur] being the element
    under construction (reversed). *)
Fixpoint split_slash (s : string) (cur : list ascii) : list string :=
  match s with
  | EmptyString => [string_of_list_ascii (rev cur)]
  | String c r =>
      if Ascii.eqb c "/"%char
      then string_of_list_ascii (rev cur) :: split_slash r []
      else split_slash r (c :: cur)
  end.

(** One element processed by [path.Clean]; [out] is the cleaned path so
    far, last element first. *)
Definition clean_step (rooted : bool) (out : list string) (e : string) : list string :=
  if String.eqb e "" || String.eqb e "." then out
  else if String.eqb e ".." then
    match out with
    | [] => if rooted then [] else [".."]
    | top :: out' => if String.eqb top ".." then ".." :: out else out'
    end
  else e :: out.

Fixpoint join_slash (l : list string) : string :=
  match l with
  | [] => ""
  | [e] => e
  | e :: l' => (e ++ "/" ++ join_slash l')%string
  end.

(** [path.Clean]: no empty and no [.] elements, every inner [..] removed
    with the element before it, [..] dropped at the root; the empty
    result is [.]. *)
Definition Clean (p : string) : string :=
  match p with
  | EmptyString => "."
  | String c _ =>
      let rooted := Ascii.eqb c "/"%char in
      let out := join_slash (rev (fold_left (clean_step rooted) (split_slash p []) [])) in
      if rooted then ("/" ++ out)%string
      else if String.eqb out "" then "." else out
  end.

(** [path.Join(a, b)]: empty elements are ignored, the others joined with
    a slash and cleaned; the result is empty when both are. *)
Definition Join (a b : string) : string :=
  if String.eqb a "" then (if String.eqb b "" then "" else Clean b)
  else if String.eqb b "" then Clean a
  else Clean (a ++ "/" ++ b)%string.

(** *** [math/rand] *)

(** [rand.Intn(n)] for a source about to draw [draw]: it panics when
    [n <= 0] and returns a number of [[0, n)] otherwise. *)
Definition Intn (draw : Z) (n : Z) : option Z :=
  if n <=? 0 then None else Some (draw mod n).

(** *** [net/http] *)

(** [http.StatusText], for the codes the program uses. *)
Definition StatusText (code : Z) : string :=
  if code =? 302 then "Found"
  else if code =? 404 then "Not Found"
  else if code =? 405 then "Method Not Allowed"
  else if code =? 500 then "Internal Server Error"
  else "".

Definition StatusFound : Z := 302.

(** [*http.Request]: the method and [r.URL.Path]. *)
Record Request := { Method : string; Path : string }.

(** The calls a handler makes with its [http.ResponseWriter]. *)
Inductive Call :=
| Error (msg : string) (code : Z)        (* http.Error(w, msg, code) *)
| NotFound                               (* http.NotFound(w, r) *)
| Redirect (url : string) (code : Z).    (* http.Redirect(w, r, url, code) *)

(** The status code a call writes. *)
Definition status_of (c : Call) : Z :=
  match c with
  | Error _ code => code
  | NotFound => 404
  | Redirect _ code => code
  end.

(** How a handler ends. *)
Inductive Exit := Return | Panic (msg : string).

(** What a handler does: the calls it makes, in order, and how it ends. *)
Definition Outcome : Type := list Call * Exit.

Definition Handler : Type := Request -> Outcome.

(** [http.StripPrefix(prefix, h)], for a non-empty prefix and a request
    whose [RawPath] is empty. *)
Definition StripPrefix (prefix : string) (h : Handler) : Handler :=
  fun r =>
    let p := TrimPrefix (Path r) prefix in
    if (String.length p <? String.length (Path r))%nat
    then h {| Method := Method r; Path := p |}
    else ([NotFound], Return).

(** *** [net/url]

    The program parses the mirror's URL, replaces its path and prints it
    back. The parser and the printer are an interface of the model:
    statements about [redirector] hold for every implementation. *)
Class NetURL := {
  URLValue : Type;
  url_Parse : string -> option URLValue;      (* url.Parse, [None] on error *)
  url_Path : URLValue -> string;              (* u.Path *)
  url_setPath : string -> URLValue -> URLValue; (* u.Path = p *)
  url_String : URLValue -> string             (* u.String() *)
}.

(** *** [sync/atomic]

    The content of an [atomic.Value] holding a [*T]: [None] until the
    first [Store]. *)
Definition Value (T : Type) : Type := option T.

Definition nil_assertion : string :=
  "interface conversion: interface {} is nil".

End Go.

(** An implementation of the [net/url] interface for URLs of the shape
    [scheme://host/path] without user information, query, fragment or
    characters to escape, which is the shape of the mirror URLs. *)
Module SimpleURL.

Record url := { Scheme : string; Host : string; UPath : string }.

Fixpoint split_scheme (s : string) (acc : list ascii) : option (string * string) :=
  match s with
  | EmptyString => None
  | String c r =>
      if Ascii.eqb c ":"%char then
        if String.prefix "//" r
        then Some (string_of_list_ascii (rev acc), Go.slice_from 2 r)
        else None
      else split_scheme r (c :: acc)
  end.

Fixpoint split_host (s : string) (acc : list ascii) : string * string :=
  match s with
  | EmptyString => (string_of_list_ascii (rev acc), "")
  | String c r =>
      if Ascii.eqb c "/"%char then (string_of_list_ascii (rev acc), s)
      else split_host r (c :: acc)
  end.

Definition Parse (s : string) : option url :=
  match split_scheme s [] with
  | None => None
  | Some (sch, rest) =>
      let (h, p) := split_host rest [] in
      Some {| Scheme := sch; Host := h; UPath := p |}
  end.

Definition rooted (p : string) : bool :=
  match p with
  | String c _ => Ascii.eqb c "/"%char
  | EmptyString => false
  end.

(** [u.String()]: a slash is added before a non-empty relative path. *)
Definition to_string (u : url) : string :=
  (Scheme u ++ "://" ++ Host u ++
   (if negb (String.eqb (UPath u) "") && negb (rooted (UPath u)) then "/" else "") ++
   UPath u)%string.

Definition setPath (p : string) (u : url) : url :=
  {| Scheme := Scheme u; Host := Host u; UPath := p |}.

Definition net_url : Go.NetURL :=
  {| Go.URLValue := url;
     Go.url_Parse := Parse;
     Go.url_Path := UPath;
     Go.url_setPath := setPath;
     Go.url_String := to_string |}.

End SimpleURL.

(** ** [src/kaleidoscope.go] *)

Module Kaleidoscope.
Import Go.

(** [type config struct] *)
Record config := {
  url           : string;
  interval      : Z;          (* time.Duration *)
  minCompletion : float
}.

(** [type MirrorStatus struct] *)
Record MirrorStatus := {
  Cutoff         : Z;
  CheckFrequency : Z;
  NumChecks      : Z;
  LastCheck      : Z;         (* time.Time *)
  Version        : Z;
  URLs           : list Mirror
}.

(** What [http.Get] and the JSON decoder deliver for one fetch. *)
Inductive Upstream :=
| TransportError (e : string)        (* http.Get returned an error *)
| DecodeError (e : string)           (* decoder.Decode returned an error *)
| Decoded (m : MirrorStatus).

(** The variables of the filter loop of [getData]. *)
Record filterState := {
  newURLs       : list Mirror;
  httpCount     : Z;
  completeCount : Z
}.

(** The condition under which the loop retains a mirror. *)
Definition retained (c : config) (url : Mirror) : bool :=
  String.eqb (Protocol url) "http"
  && Float64.geb (Completion url) (minCompletion c).

(** The body of [for _, url := range m.URLs]. *)
Definition filterStep (c : config) (st : filterState) (url : Mirror) : filterState :=
  let isHTTP := String.eqb (Protocol url) "http" in
  let isComplete := Float64.geb (Completion url) (minCompletion c) in
  {| newURLs := if isHTTP && isComplete then newURLs st ++ [url] else newURLs st;
     httpCount := if isHTTP then httpCount st + 1 else httpCount st;
     completeCount := if isComplete then completeCount st + 1 else completeCount st |}.

Definition filterLoop (c : config) (urls : list Mirror) : filterState :=
  fold_left (filterStep c) urls
            {| newURLs := []; httpCount := 0; completeCount := 0 |}.

(** [func getData]: the fetch, the decoding and the filter. *)
Definition getData (c : config) (up : Upstream) : result MirrorStatus :=
  match up with
  | TransportError e => Err e
  | DecodeError e => Err e
  | Decoded m =>
      let st := filterLoop c (URLs m) in
      Ok {| Cutoff := Cutoff m; CheckFrequency := CheckFrequency m;
            NumChecks := NumChecks m; LastCheck := LastCheck m;
            Version := Version m; URLs := newURLs st |}
  end.

(** What the refresh loop does, in order. *)
Inductive Event :=
| LogPrint (msg : string)            (* log.Print *)
| Fetch                              (* the call of getData *)
| Store (m : MirrorStatus)           (* status.Store(newM) *)
| TickerRecv.                        (* <-ticker.C *)

(** One iteration of the [for] loop of [update], on the content of
    [status] and the upstream's answer to this iteration's fetch. *)
Definition update_iteration (c : config) (status : Value MirrorStatus) (up : Upstream)
  : Value MirrorStatus * list Event :=
  match getData c up with
  | Err e =>
      (* log.Print(err); continue *)
      (status, [LogPrint "Performing auto update..."; Fetch; LogPrint e])
  | Ok newM =>
      (Some newM,
       [LogPrint "Performing auto update..."; Fetch; Store newM;
        LogPrint "Auto update complete."; TickerRecv])
  end.

(** [func update(status *atomic.Value, c *config)]: the loop never ends;
    [ups] are the upstream's answers to its first fetches, one per
    iteration. *)
Fixpoint update (c : config) (status : Value MirrorStatus) (ups : list Upstream)
  : Value MirrorStatus * list Event :=
  match ups with
  | [] => (status, [])
  | up :: ups' =>
      let (status1, ev1) := update_iteration c status up in
      let (status2, ev2) := update c status1 ups' in
      (status2, ev1 ++ ev2)
  end.

(** [func methodOnly(method string, next http.HandlerFunc) http.HandlerFunc] *)
Definition methodOnly (method : string) (next : Handler) : Handler :=
  fun r =>
    if negb (String.eqb (Method r) method)
    then ([Error (StatusText 405) 405], Return)
    else next r.

(** [func makeGlobalHandler(val *atomic.Value) http.HandlerFunc]; [val]
    is the content of the value when the handler loads it and [draw] the
    random source's next draw. *)
Definition makeGlobalHandler (val : Value MirrorStatus) (draw : Z) : Handler :=
  fun r =>
    match val with
    | None => ([], Panic nil_assertion)       (* the type assertion on val.Load() *)
    | Some status =>
        let n := Z.of_nat (length (URLs status)) in
        (* no return after the error *)
        let w := if n =? 0 then [Error (StatusText 500) 500] else [] in
        match Intn draw n with
        | None => (w, Panic "invalid argument to Intn")
        | Some pick =>
            match nth_error (URLs status) (Z.to_nat pick) with
            | None => (w, Panic "index out of range")
            | Some m => (w ++ [Redirect (URL m) StatusFound], Return)
            end
        end
    end.

Definition is_letter (a : ascii) : bool := is_upper a || is_lower a.

(** [re.FindStringSubmatch] for [re = `/([A-Za-z]{2})$`]: the match and
    its group, when the path ends with a slash and two letters. *)
Fixpoint countryRe (p : string) : option (string * string) :=
  match p with
  | EmptyString => None
  | String c r =>
      match r with
      | String a (String b EmptyString) =>
          if Ascii.eqb c "/"%char && is_letter a && is_letter b
          then Some (p, r) else None
      | _ => countryRe r
      end
  end.

(** The loop of [makeCountryHandler] that collects [res]:
    [if mirror.CountryCode == countryCode && mirror.Completion >= 1.0]. *)
Definition countryMirrors (status : MirrorStatus) (countryCode : string) : list Mirror :=
  List.filter (fun mirror =>
                 String.eqb (CountryCode mirror) countryCode
                 && Float64.geb (Completion mirror) 1%float)
              (URLs status).

(** [func makeCountryHandler(val *atomic.Value) http.HandlerFunc] *)
Definition makeCountryHandler (val : Value MirrorStatus) (draw : Z) : Handler :=
  fun r =>
    match countryRe (Path r) with
    | None => ([NotFound], Return)
    | Some (_, code) =>
        let countryCode := ToUpper code in
        match val with
        | None => ([], Panic nil_assertion)
        | Some status =>
            let w :=
              if Z.of_nat (length (URLs status)) =? 0
              then [Error (StatusText 500) 500] else [] in
            let res := countryMirrors status countryCode in
            if Z.of_nat (length res) =? 0 then (w ++ [NotFound], Return)
            else
              match Intn draw (Z.of_nat (length res)) with
              | None => (w, Panic "invalid argument to Intn")
              | Some pick =>
                  match nth_error res (Z.to_nat pick) with
                  | None => (w, Panic "index out of range")
                  | Some m => (w ++ [Redirect (URL m) StatusFound], Return)
                  end
              end
        end
    end.

(** The routes of [main]: [/country/] and [/global], both [GET] only. *)
Definition countryHandler (val : Value MirrorStatus) (draw : Z) : Handler :=
  methodOnly "GET" (makeCountryHandler val draw).

Definition globalHandler (val : Value MirrorStatus) (draw : Z) : Handler :=
  methodOnly "GET" (makeGlobalHandler val draw).

(** Whether the fetch of an iteration yields a snapshot. *)
Definition succeeds (c : config) (up : Upstream) : bool :=
  match getData c up with
  | Ok _ => true
  | Err _ => false
  end.

Definition is_Fetch (e : Event) : bool :=
  match e with Fetch => true | _ => false end.

Definition is_Store (e : Event) : bool :=
  match e with Store _ => true | _ => false end.

Definition is_TickerRecv (e : Event) : bool :=
  match e with TickerRecv => true | _ => false end.

End Kaleidoscope.

(** ** [src/unnamed/part_000] *)

Module Part000.
Import Go.

(** [type config struct] *)
Record config := {
  url           : string;
  interval      : Z;          (* time.Duration *)
  minCompletion : float;
  host          : string;
  port          : Z
}.

(** [type MirrorStatus struct] *)
Record MirrorStatus := {
  Cutoff         : Z;
  CheckFrequency : Z;
  NumChecks      : Z;
  LastCheck      : Z;         (* time.Time *)
  Version        : Z;
  Global         : list Mirror;
  Countries      : gmap string (list Mirror)
}.

(** What [http.Get] and the JSON decoder deliver for one fetch. *)
Inductive Upstream :=
| TransportError (e : string)        (* http.Get returned an error *)
| DecodeError (e : string)           (* decoder.Decode returned an error *)
| Decoded (m : MirrorStatus).

(** [func (s ByScore) Less(i, j int) bool { return s[i].Score < s[j].Score }] *)
Definition ByScore_Less : Less Mirror :=
  fun x y => Float64.ltb (Score x) (Score y).

(** The variables of the filter loop of [getMirrorInfo]. *)
Record filterState := {
  newMirrors    : list Mirror;
  countries     : gmap string (list Mirror);
  httpCount     : Z;
  completeCount : Z
}.

(** The condition under which the loop retains a mirror. *)
Definition retained (c : config) (mirror : Mirror) : bool :=
  String.eqb (Protocol mirror) "http"
  && Float64.geb (Completion mirror) (minCompletion c).

(** The body of [for _, mirror := range m.Global]. *)
Definition filterStep (c : config) (st : filterState) (mirror : Mirror) : filterState :=
  let isHTTP := String.eqb (Protocol mirror) "http" in
  let isComplete := Float64.geb (Completion mirror) (minCompletion c) in
  {| newMirrors := if isHTTP && isComplete then newMirrors st ++ [mirror] else newMirrors st;
     countries :=
       if isHTTP && isComplete then
         let country :=
           match countries st !! CountryCode mirror with
           | Some country => country
           | None => []                   (* make([]*Mirror, 0) *)
           end in
         <[CountryCode mirror := country ++ [mirror]]> (countries st)
       else countries st;
     httpCount := if isHTTP then httpCount st + 1 else httpCount st;
     completeCount := if isComplete then completeCount st + 1 else completeCount st |}.

Definition filterLoop (c : config) (mirrors : list Mirror) : filterState :=
  fold_left (filterStep c) mirrors
            {| newMirrors := []; countries := ∅; httpCount := 0; completeCount := 0 |}.

(** [func getMirrorInfo]: the fetch, the decoding, the sort
    [sort.Stable(sort.Reverse(ByScore(m.Global)))] and the filter. *)
Definition getMirrorInfo (c : config) (up : Upstream) : result MirrorStatus :=
  match up with
  | TransportError e => Err e
  | DecodeError e => Err e
  | Decoded m =>
      let sorted := Stable (Reverse ByScore_Less) (Global m) in
      let st := filterLoop c sorted in
      Ok {| Cutoff := Cutoff m; CheckFrequency := CheckFrequency m;
            NumChecks := NumChecks m; LastCheck := LastCheck m;
            Version := Version m;
            Global := newMirrors st; Countries := countries st |}
  end.

(** What the refresh loop does, in order. *)
Inductive Event :=
| LogPrint (msg : string)            (* log.Print *)
| Fetch                              (* the call of getMirrorInfo *)
| Store (m : MirrorStatus)           (* status.Store(newM) *)
| DoneSend                           (* done <- true; close(done) *)
| TickerRecv.                        (* <-ticker.C *)

(** The state of the refresh loop: the content of [status] and whether
    [once] has run. *)
Record loopState := { status : Value MirrorStatus; once : bool }.

(** One iteration of the [for] loop of [update]. *)
Definition update_iteration (c : config) (st : loopState) (up : Upstream)
  : loopState * list Event :=
  match getMirrorInfo c up with
  | Err e =>
      (* log.Print(err); continue *)
      (st, [LogPrint "Performing auto update..."; Fetch; LogPrint e])
  | Ok newM =>
      ({| status := Some newM; once := true |},
       [LogPrint "Performing auto update..."; Fetch; Store newM;
        LogPrint "Auto update complete."]
         ++ (if once st then [] else [DoneSend])
         ++ [TickerRecv])
  end.

(** [func update]: the loop never ends; [ups] are the upstream's answers
    to its first fetches, one per iteration. *)
Fixpoint update (c : config) (st : loopState) (ups : list Upstream)
  : loopState * list Event :=
  match ups with
  | [] => (st, [])
  | up :: ups' =>
      let (st1, ev1) := update_iteration c st up in
      let (st2, ev2) := update c st1 ups' in
      (st2, ev1 ++ ev2)
  end.

(** [m[code]] on a map of slices: the empty slice for a missing key. *)
Definition bucket (m : gmap string (list Mirror)) (code : string) : list Mirror :=
  default [] (m !! code).

(** The mirrors of one country. *)
Definition has_code (code : string) (x : Mirror) : bool :=
  String.eqb (CountryCode x) code.

(** A bucket exists only once a mirror has been appended to it. *)
Definition no_empty_bucket (m : gmap string (list Mirror)) : Prop :=
  forall code l, m !! code = Some l -> l <> [].

(** What a selector returns: a mirror (and the request, whose path it may
    have rewritten), an error, or a panic. *)
Inductive Selection :=
| Selected (mirror : Mirror) (r : Request)
| Failed (err : string)
| Panicked (msg : string).

(** [type selector]: from the snapshot and the request to a mirror or an error. *)
Definition selector : Type := MirrorStatus -> Request -> Selection.

(** [func globalSelector]: [status.Global[0]]. *)
Definition globalSelector : selector :=
  fun status r =>
    match Global status with
    | [] => Panicked "index out of range"
    | mirror :: _ => Selected mirror r
    end.

(** [re.FindStringSubmatch] for [re = `^/([a-z]{2})(?:/|$)`]: the match
    and its group. *)
Definition countryRe (p : string) : option (string * string) :=
  match p with
  | String c (String a (String b rest)) =>
      if Ascii.eqb c "/"%char && is_lower a && is_lower b then
        let code := String a (String b EmptyString) in
        match rest with
        | EmptyString => Some (String c code, code)
        | String d _ =>
            if Ascii.eqb d "/"%char
            then Some (String c (String a (String b (String d EmptyString))), code)
            else None
        end
      else None
  | _ => None
  end.

(** The paths the pattern describes: a slash, two lowercase letters and
    then a slash or the end; [res0] is the text matched and [code] the
    group. *)
Definition lower_code_path (p res0 code : string) : Prop :=
  exists a b rest,
    p = String "/" (String a (String b rest))
    /\ is_lower a = true /\ is_lower b = true
    /\ code = String a (String b "")
    /\ ((rest = "" /\ res0 = String "/" code)
        \/ (exists sub, rest = String "/" sub
                        /\ res0 = String "/" (String a (String b "/")))).

(** [func countrySelector() selector] *)
Definition countrySelector : selector :=
  fun status r =>
    match countryRe (Path r) with
    | None => Failed "invalid country code []"
    | Some (res0, res1) =>
        match Countries status !! ToUpper res1 with
        | None => Failed "country not found"
        | Some country =>
            let r' := {| Method := Method r;
                         Path := slice_from (String.length res0) (Path r) |} in
            match country with
            | [] => Panicked "index out of range"     (* country[0] *)
            | mirror :: _ => Selected mirror r'
            end
        end
    end.

Section Redirector.
Context `{NetURL}.

(** [func redirector(status *atomic.Value, s selector) http.HandlerFunc];
    [val] is the content of [status] when the handler loads it. *)
Definition redirector (val : Value MirrorStatus) (s : selector) : Handler :=
  fun r =>
    if negb (String.eqb (Method r) "GET")
    then ([Error (StatusText 405) 405], Return)
    else
      match val with
      | None => ([], Panic nil_assertion)   (* the type assertion on status.Load() *)
      | Some c =>
          if Z.of_nat (length (Global c)) =? 0
          then ([Error (StatusText 500) 500], Return)
          else
            match s c r with
            | Panicked msg => ([], Panic msg)
            | Failed err => ([Error err 404], Return)
            | Selected mirror r' =>
                match url_Parse (URL mirror) with
                | None => ([Error (StatusText 500) 500], Return)
                | Some u =>
                    let u' := url_setPath (Join (url_Path u) (Path r')) u in
                    ([Redirect (url_String u') 302], Return)
                end
            end
      end.

(** The routes of [main]. *)
Definition countryHandler (val : Value MirrorStatus) : Handler :=
  StripPrefix "/country" (redirector val countrySelector).

Definition globalHandler (val : Value MirrorStatus) : Handler :=
  StripPrefix "/global" (redirector val globalSelector).

(** *** The process: [main] and the refresh loop

    [main] starts [update] and waits on [done]; [update] sends on
    [done] after its first [Store]; only then does [main] call
    [http.ListenAndServe]. *)
Record System := {
  loop    : loopState;       (* the refresh goroutine and the value *)
  serving : bool             (* main is past <-done, in ListenAndServe *)
}.

Definition boot : System :=
  {| loop := {| status := None; once := false |}; serving := false |}.

Inductive Route := CountryRoute | GlobalRoute.

Definition serve (route : Route) (val : Value MirrorStatus) : Handler :=
  match route with
  | CountryRoute => countryHandler val
  | GlobalRoute => globalHandler val
  end.

Inductive Action :=
| Refresh (up : Upstream)                         (* one iteration of update *)
| Listen                                          (* <-done returns *)
| Serve (route : Route) (r : Request) (out : Outcome).

Inductive step (c : config) : System -> Action -> System -> Prop :=
| step_refresh sys up :
    step c sys (Refresh up)
         {| loop := fst (update_iteration c (loop sys) up); serving := serving sys |}
| step_listen sys :
    once (loop sys) = true ->
    step c sys Listen {| loop := loop sys; serving := true |}
| step_serve sys route r :
    serving sys = true ->
    step c sys (Serve route r (serve route (status (loop sys)) r)) sys.

(** The invariant of the process: [once] has run only after a
    [Store], and [main] serves only after [once] has run. *)
Definition ready (sys : System) : Prop :=
  (once (loop sys) = true -> exists m, status (loop sys) = Some m)
  /\ (serving sys = true -> once (loop sys) = true).

Inductive run (c : config) : System -> list Action -> System -> Prop :=
| run_nil sys : run c sys [] sys
| run_cons sys a sys' tr sys'' :
    step c sys a sys' -> run c sys' tr sys'' -> run c sys (a :: tr) sys''.

End Redirector.

(** Whether the fetch of an iteration yields a snapshot. *)
Definition succeeds (c : config) (up : Upstream) : bool :=
  match getMirrorInfo c up with
  | Ok _ => true
  | Err _ => false
  end.

Definition is_Fetch (e : Event) : bool :=
  match e with Fetch => true | _ => false end.

Definition is_Store (e : Event) : bool :=
  match e with Store _ => true | _ => false end.

Definition is_DoneSend (e : Event) : bool :=
  match e with DoneSend => true | _ => false end.

Definition is_TickerRecv (e : Event) : bool :=
  match e with TickerRecv => true | _ => false end.

End Part000.

(** ** Concrete inputs

    The scenarios of the specification: three mirrors upstream with the
    threshold at 1.0, and a mirror of the United States at
    [https://mirror.example/archlinux/]. *)

Module Scenario.

Definition mirror (protocol url code : string) (completion score : float) : Mirror :=
  {| Protocol := protocol; URL := url; Country := ""; LastSync := None;
     Delay := 0; Score := score; Completion := completion;
     CountryCode := code; DurStdDev := 0%float; DurAvg := 0%float |}.

Definition entry1 : Mirror := mirror "http" "http://one.example/" "US" 1%float 10%float.
Definition entry2 : Mirror := mirror "https" "https://two.example/" "US" 1%float 5%float.
Definition entry3 : Mirror := mirror "http" "http://three.example/" "DE" 0.5%float 1%float.

(** A complete HTTP mirror with the same score as [entry1], listed after it. *)
Definition entry4 : Mirror := mirror "http" "http://four.example/" "DE" 1%float 10%float.

Definition example_mirror : Mirror :=
  mirror "http" "https://mirror.example/archlinux/" "US" 1%float 12%float.

Definition conf : Part000.config :=
  {| Part000.url := "https://www.archlinux.org/mirrors/status/json/";
     Part000.interval := 3600;
     Part000.minCompletion := 1%float;
     Part000.host := "0.0.0.0";
     Part000.port := 9090 |}.

Definition payload (urls : list Mirror) : Part000.MirrorStatus :=
  {| Part000.Cutoff := 86400; Part000.CheckFrequency := 60;
     Part000.NumChecks := 10; Part000.LastCheck := 0; Part000.Version := 3;
     Part000.Global := urls; Part000.Countries := ∅ |}.

Definition upstream : Part000.MirrorStatus :=
  payload [entry1; entry2; entry3; entry4; example_mirror].

(** A snapshot as [getMirrorInfo] stores it. *)
Definition snapshot (global : list Mirror) (index : gmap string (list Mirror))
  : Part000.MirrorStatus :=
  {| Part000.Cutoff := 86400; Part000.CheckFrequency := 60;
     Part000.NumChecks := 10; Part000.LastCheck := 0; Part000.Version := 3;
     Part000.Global := global; Part000.Countries := index |}.

Definition empty_snapshot : Part000.MirrorStatus := snapshot [] ∅.

(** The snapshot [getMirrorInfo] builds from [upstream]. *)
Definition built : Part000.MirrorStatus :=
  match Part000.getMirrorInfo conf (Part000.Decoded upstream) with
  | Ok s => s
  | Err _ => empty_snapshot
  end.

Definition kconf : Kaleidoscope.config :=
  {| Kaleidoscope.url := "https://www.archlinux.org/mirrors/status/json/";
     Kaleidoscope.interval := 3600;
     Kaleidoscope.minCompletion := 1%float |}.

Definition kstatus (urls : list Mirror) : Kaleidoscope.MirrorStatus :=
  {| Kaleidoscope.Cutoff := 86400; Kaleidoscope.CheckFrequency := 60;
     Kaleidoscope.NumChecks := 10; Kaleidoscope.LastCheck := 0;
     Kaleidoscope.Version := 3; Kaleidoscope.URLs := urls |}.

Definition get (path : string) : Go.Request :=
  {| Go.Method := "GET"; Go.Path := path |}.

End Scenario.

(** * Part II: properties *)

(** ** Comparisons of [float64] values *)

Section Float64Facts.
Import Float64.

Lemma cmp_cont_Eq m1 m2 : Pos.compare_cont Eq m1 m2 = (m1 ?= m2)%positive.
Proof. reflexivity. Qed.

Lemma SFcompare_Lt_rank a b :
  a <> S754_nan -> b <> S754_nan ->
  (SFcompare a b = Some Lt <-> rank_lt (rank a) (rank b)).
Proof.
  intros Ha Hb. unfold rank_lt.
  destruct a as [sa|sa| |sa ma ea], b as [sb|sb| |sb mb eb];
    try congruence; simpl;
    repeat match goal with s : bool |- _ => destruct s end; simpl;
    try (split; [intros; try discriminate; lia | intros; try reflexivity; lia]).
  all: rewrite cmp_cont_Eq;
    destruct (Z.compare_spec ea eb); destruct (Pos.compare_spec ma mb); simpl;
    split; intros; try discriminate; try reflexivity; try lia.
Qed.

Lemma SFcompare_Eq_rank a b :
  SFcompare a b = Some Eq -> rank a = rank b /\ a <> S754_nan /\ b <> S754_nan.
Proof.
  destruct a as [sa|sa| |sa ma ea], b as [sb|sb| |sb mb eb]; simpl;
    repeat match goal with s : bool |- _ => destruct s end; simpl;
    intros H; try discriminate H; repeat split; try discriminate.
  all: rewrite cmp_cont_Eq in H;
    destruct (Z.compare_spec ea eb); try discriminate H;
    destruct (Pos.compare_spec ma mb); try discriminate H; subst; reflexivity.
Qed.

Lemma rank_lt_neg_trans x y z :
  ~ rank_lt x y -> ~ rank_lt y z -> ~ rank_lt x z.
Proof. unfold rank_lt. lia. Qed.

Lemma rank_lt_asym x y : rank_lt x y -> ~ rank_lt y x.
Proof. unfold rank_lt. lia. Qed.

Lemma rank_lt_irrefl x : ~ rank_lt x x.
Proof. unfold rank_lt. lia. Qed.

Lemma SFltb_Lt a b : SFltb a b = true <-> SFcompare a b = Some Lt.
Proof.
  unfold SFltb. destruct (SFcompare a b) as [[]|]; split; intros; congruence.
Qed.

Lemma SFltb_not_nan a b :
  SFltb a b = true -> a <> S754_nan /\ b <> S754_nan.
Proof. destruct a, b; simpl; intros H; (discriminate H || (split; discriminate)). Qed.

Lemma SFltb_rank a b :
  SFltb a b = true <-> (a <> S754_nan /\ b <> S754_nan /\ rank_lt (rank a) (rank b)).
Proof.
  split.
  - intros H. destruct (SFltb_not_nan _ _ H) as [Ha Hb].
    repeat split; try assumption.
    apply SFcompare_Lt_rank; try assumption. now apply SFltb_Lt.
  - intros (Ha & Hb & H). apply SFltb_Lt. now apply SFcompare_Lt_rank.
Qed.

Lemma is_nan_false a : is_nan a = false -> Prim2SF a <> S754_nan.
Proof.
  unfold is_nan, PrimFloat.is_nan. rewrite FloatAxioms.eqb_spec. intros H E.
  rewrite E in H. discriminate H.
Qed.

(** [<] is asymmetric. *)
Lemma ltb_asym a b : ltb a b = true -> ltb b a = false.
Proof.
  unfold ltb. rewrite !FloatAxioms.ltb_spec. intros H.
  apply SFltb_rank in H as (Ha & Hb & H).
  destruct (SFltb (Prim2SF b) (Prim2SF a)) eqn:E; [|reflexivity].
  apply SFltb_rank in E as (_ & _ & E). now apply rank_lt_asym in H.
Qed.

(** Away from NaN, [not (a < b)] is transitive. *)
Lemma ltb_neg_trans a b c :
  is_nan b = false ->
  ltb a b = false -> ltb b c = false -> ltb a c = false.
Proof.
  unfold ltb. rewrite !FloatAxioms.ltb_spec. intros Hb%is_nan_false Hab Hbc.
  destruct (SFltb (Prim2SF a) (Prim2SF c)) eqn:E; [exfalso|reflexivity].
  apply SFltb_rank in E as (Ha & Hc & E).
  revert E. apply rank_lt_neg_trans with (y := rank (Prim2SF b)); intros E.
  - assert (SFltb (Prim2SF a) (Prim2SF b) = true) by now apply SFltb_rank.
    congruence.
  - assert (SFltb (Prim2SF b) (Prim2SF c) = true) by now apply SFltb_rank.
    congruence.
Qed.

(** Two values equal to a third are not ordered by [<]. *)
Lemma eqb_ltb_excl v x y :
  eqb v x = true -> eqb v y = true -> ltb x y = false.
Proof.
  unfold eqb, ltb. rewrite !FloatAxioms.eqb_spec, FloatAxioms.ltb_spec. unfold SFeqb. intros Hx Hy.
  destruct (SFcompare (Prim2SF v) (Prim2SF x)) as [[]|] eqn:Ex; try discriminate Hx.
  destruct (SFcompare (Prim2SF v) (Prim2SF y)) as [[]|] eqn:Ey; try discriminate Hy.
  apply SFcompare_Eq_rank in Ex as (Rx & _ & _).
  apply SFcompare_Eq_rank in Ey as (Ry & _ & _).
  destruct (SFltb (Prim2SF x) (Prim2SF y)) eqn:E; [exfalso|reflexivity].
  apply SFltb_rank in E as (_ & _ & E).
  rewrite <- Rx, <- Ry in E. now apply rank_lt_irrefl in E.
Qed.

Lemma SFleb_rank a b :
  SFleb a b = true
  <-> (a <> S754_nan /\ b <> S754_nan /\ ~ rank_lt (rank b) (rank a)).
Proof.
  unfold SFleb, rank_lt.
  destruct a as [sa|sa| |sa ma ea], b as [sb|sb| |sb mb eb]; simpl;
    repeat match goal with s : bool |- _ => destruct s end; simpl;
    try (split; [intros; try discriminate; repeat split; try discriminate; lia
                | intros (? & ? & ?); try congruence; try reflexivity; lia]).
  all: rewrite cmp_cont_Eq;
    destruct (Z.compare_spec ea eb); destruct (Pos.compare_spec ma mb); simpl;
    (split; [intros; try discriminate; repeat split; try discriminate; lia
            | intros (? & ? & ?); try congruence; try reflexivity; lia]).
Qed.

(** [>=] is transitive. *)
Lemma geb_trans a b c : geb a b = true -> geb b c = true -> geb a c = true.
Proof.
  unfold geb. rewrite !FloatAxioms.leb_spec. intros Hab Hbc.
  apply SFleb_rank in Hab as (Hb & Ha & Hab).
  apply SFleb_rank in Hbc as (Hc & _ & Hbc).
  apply SFleb_rank. repeat split; try assumption.
  now apply rank_lt_neg_trans with (y := rank (Prim2SF b)).
Qed.

End Float64Facts.

(** ** [sort.Stable] *)

Section SortFacts.
Context {A : Type} (less : Go.Less A).

Lemma sink_perm x before : Permutation (Go.sink less x before) (x :: before).
Proof.
  induction before as [|y before IH]; simpl; [reflexivity|].
  destruct (less x y); [|reflexivity].
  rewrite IH. apply perm_swap.
Qed.

Lemma sink_loop_perm data before :
  Permutation (fold_left (fun b x => Go.sink less x b) data before)
              (rev data ++ before).
Proof.
  revert before. induction data as [|x data IH]; intros before; simpl; [reflexivity|].
  rewrite IH, sink_perm, <- app_assoc. reflexivity.
Qed.

(** Sorting rearranges the slice and nothing else. *)
Lemma Stable_perm data : Permutation (Go.Stable less data) data.
Proof.
  unfold Go.Stable, Go.insertionSort.
  rewrite <- Permutation_rev, sink_loop_perm, app_nil_r.
  symmetry. apply Permutation_rev.
Qed.

(** *** Stability: elements with the same key keep their order.

    [same v x] says that the key of [x] is [v]; two elements with the
    same key are never ordered by [less]. *)
Section Stability.
Context {K : Type} (same : K -> A -> bool) (v : K).
Hypothesis same_unordered :
  forall x y, same v x = true -> same v y = true -> less x y = false.

Lemma sink_filter x before :
  List.filter (same v) (Go.sink less x before) = List.filter (same v) (x :: before).
Proof.
  induction before as [|y before IH]; [reflexivity|].
  simpl. destruct (less x y) eqn:L; [|reflexivity].
  simpl. rewrite IH. simpl.
  destruct (same v x) eqn:Sx, (same v y) eqn:Sy; try reflexivity.
  rewrite (same_unordered x y Sx Sy) in L. discriminate L.
Qed.

Lemma sink_loop_filter data before :
  List.filter (same v) (fold_left (fun b x => Go.sink less x b) data before)
  = rev (List.filter (same v) data) ++ List.filter (same v) before.
Proof.
  revert before. induction data as [|x data IH]; intros before; [reflexivity|].
  simpl fold_left. rewrite IH, sink_filter. simpl.
  destruct (same v x); simpl; [|reflexivity].
  now rewrite <- app_assoc.
Qed.

Lemma Stable_stable data :
  List.filter (same v) (Go.Stable less data) = List.filter (same v) data.
Proof.
  unfold Go.Stable, Go.insertionSort.
  rewrite filter_rev, sink_loop_filter, app_nil_r. apply rev_involutive.
Qed.
End Stability.

(** *** Order: no element is [less] than one before it.

    [ok] holds of the elements on which [less] is a strict weak order. *)
Section Order.
Context (ok : A -> Prop).
Hypothesis less_asym : forall x y, less x y = true -> less y x = false.
Hypothesis less_neg_trans :
  forall x y z, ok y -> less x y = false -> less y z = false -> less x z = false.

Local Abbreviation sorted_before := (Go.sorted_before less).

Lemma sink_sorted x before :
  Forall ok before -> sorted_before before -> sorted_before (Go.sink less x before).
Proof.
  unfold Go.sorted_before.
  induction before as [|y before IH]; intros Hok Hs; simpl.
  - constructor; constructor.
  - inversion Hs as [|? ? Hs' Hy]; subst.
    inversion Hok as [|? ? Oy Hok']; subst.
    destruct (less x y) eqn:L.
    + constructor; [now apply IH|].
      eapply Permutation_Forall; [symmetry; apply sink_perm|].
      constructor; [now apply less_asym | assumption].
    + constructor; [assumption|].
      constructor; [assumption|].
      eapply List.Forall_impl; [|exact Hy].
      intros z Hz. simpl in Hz. now apply less_neg_trans with (y := y).
Qed.

Lemma sink_loop_sorted data before :
  Forall ok data -> Forall ok before -> sorted_before before ->
  sorted_before (fold_left (fun b x => Go.sink less x b) data before).
Proof.
  revert before. induction data as [|x data IH]; intros before Hd Hb Hs; [exact Hs|].
  inversion Hd; subst. simpl. apply IH; try assumption.
  - eapply Permutation_Forall; [symmetry; apply sink_perm|]. now constructor.
  - now apply sink_sorted.
Qed.

Lemma StronglySorted_snoc (R : A -> A -> Prop) l x :
  StronglySorted R l -> Forall (fun y => R y x) l -> StronglySorted R (l ++ [x]).
Proof.
  induction l as [|y l IH]; intros Hs Hx; simpl.
  - constructor; constructor.
  - inversion Hs; subst. inversion Hx; subst.
    constructor; [now apply IH|].
    apply Forall_app. split; [assumption|]. constructor; [assumption|constructor].
Qed.

Lemma StronglySorted_rev (R : A -> A -> Prop) l :
  StronglySorted R l -> StronglySorted (fun a b => R b a) (rev l).
Proof.
  induction 1 as [|x l Hs IH Hx]; simpl; [constructor|].
  apply StronglySorted_snoc; [assumption|].
  apply Forall_rev. exact Hx.
Qed.

Lemma Stable_sorted data :
  Forall ok data ->
  StronglySorted (fun earlier later => less later earlier = false)
                 (Go.Stable less data).
Proof.
  intros Hd. unfold Go.Stable, Go.insertionSort.
  apply (StronglySorted_rev (fun later earlier => less later earlier = false)).
  apply sink_loop_sorted; [assumption|constructor|constructor].
Qed.
End Order.

(** *** The contract of [sort.Stable] determines its result.

    A sorted arrangement in which the elements that [less] does not order
    keep their places is unique, whatever the algorithm that computes
    it. *)
Section Unique.
Hypothesis less_irrefl : forall x, less x x = false.

Local Abbreviation sorted :=
  (StronglySorted (fun earlier later : A => less later earlier = false)).

Lemma unordered_refl x : Go.unordered less x x = true.
Proof. unfold Go.unordered. now rewrite less_irrefl. Qed.

Lemma stable_sorted_unique l1 l2 :
  sorted l1 -> sorted l2 ->
  (forall x, In x l1 \/ In x l2 ->
             List.filter (Go.unordered less x) l1 = List.filter (Go.unordered less x) l2) ->
  l1 = l2.
Proof.
  revert l2. induction l1 as [|a l1 IH]; intros l2 S1 S2 Hf.
  - destruct l2 as [|b l2]; [reflexivity|].
    specialize (Hf b (or_intror (or_introl eq_refl))).
    simpl in Hf. rewrite unordered_refl in Hf. discriminate Hf.
  - destruct l2 as [|b l2].
    { specialize (Hf a (or_introl (or_introl eq_refl))).
      simpl in Hf. rewrite unordered_refl in Hf. discriminate Hf. }
    inversion S1 as [|? ? S1' Ha]; subst. inversion S2 as [|? ? S2' Hb]; subst.
    assert (Hab : a = b).
    { pose proof (Hf a (or_introl (or_introl eq_refl))) as Fa.
      pose proof (Hf b (or_intror (or_introl eq_refl))) as Fb.
      simpl in Fa, Fb. rewrite unordered_refl in Fa, Fb.
      destruct (Go.unordered less a b) eqn:Uab; [now inversion Fa|].
      assert (Uba : Go.unordered less b a = false).
      { unfold Go.unordered in *. now rewrite andb_comm. }
      rewrite Uba in Fb.
      assert (In a l2) as Ia.
      { eapply proj1. apply (filter_In (Go.unordered less a)).
        rewrite <- Fa. now left. }
      assert (In b l1) as Ib.
      { eapply proj1. apply (filter_In (Go.unordered less b)).
        rewrite Fb. now left. }
      rewrite List.Forall_forall in Ha, Hb.
      apply Ha in Ib. apply Hb in Ia.
      unfold Go.unordered in Uab. rewrite Ia, Ib in Uab. discriminate Uab. }
    subst b. f_equal. apply IH; try assumption.
    intros x Hx.
    assert (Hx' : In x (a :: l1) \/ In x (a :: l2)) by (simpl; tauto).
    specialize (Hf x Hx'). simpl in Hf.
    destruct (Go.unordered less x a); [now inversion Hf | exact Hf].
Qed.
End Unique.

Section Contract.
Context (ok : A -> Prop).
Hypothesis less_irrefl : forall x, less x x = false.
Hypothesis less_asym : forall x y, less x y = true -> less y x = false.
Hypothesis less_neg_trans :
  forall x y z, ok y -> less x y = false -> less y z = false -> less x z = false.

(** Whatever sorts [data] stably computes [Go.Stable less data]. *)
Lemma Stable_characterised data l :
  Forall ok data ->
  Permutation l data ->
  StronglySorted (fun earlier later => less later earlier = false) l ->
  (forall x, In x data ->
             List.filter (Go.unordered less x) l = List.filter (Go.unordered less x) data) ->
  l = Go.Stable less data.
Proof.
  intros Hok Hp Hs Hst.
  apply stable_sorted_unique; try assumption.
  - now apply Stable_sorted with (ok := ok).
  - intros x Hx.
    assert (Ix : In x data).
    { destruct Hx as [Hx|Hx].
      - eapply Permutation_in; eassumption.
      - eapply Permutation_in; [apply Stable_perm | exact Hx]. }
    rewrite (Hst x Ix). symmetry.
    apply Stable_stable. intros a b Ua Ub.
    unfold Go.unordered in Ua, Ub.
    apply andb_true_iff in Ua as [_ Ua], Ub as [Ub _].
    apply negb_true_iff in Ua, Ub.
    apply less_neg_trans with (y := x); try assumption.
    rewrite List.Forall_forall in Hok. now apply Hok.
Qed.
End Contract.

Lemma StronglySorted_filter (R : A -> A -> Prop) f l :
  StronglySorted R l -> StronglySorted R (List.filter f l).
Proof.
  induction 1 as [|x l Hs IH Hx]; simpl; [constructor|].
  destruct (f x); [|assumption].
  constructor; [assumption|].
  rewrite List.Forall_forall in *. intros y Hy. apply Hx.
  apply filter_In in Hy. tauto.
Qed.

End SortFacts.

(** ** The snapshot builders *)

Lemma filter_Permutation_list {A} (f : A -> bool) (l l' : list A) :
  Permutation l l' -> Permutation (List.filter f l) (List.filter f l').
Proof.
  induction 1 as [|x l l' _ IH|x y l|l l' l'' _ IH1 _ IH2]; simpl.
  - reflexivity.
  - destruct (f x); [now constructor | assumption].
  - destruct (f x), (f y); try reflexivity. apply perm_swap.
  - now transitivity (List.filter f l').
Qed.

Lemma filter_comm_list {A} (f g : A -> bool) (l : list A) :
  List.filter f (List.filter g l) = List.filter g (List.filter f l).
Proof.
  induction l as [|x l IH]; simpl; [reflexivity|].
  destruct (f x) eqn:F, (g x) eqn:G; simpl; rewrite ?F, ?G, IH; reflexivity.
Qed.

Section KaleidoscopeBuilder.
Import Kaleidoscope.
Variable c : config.

Lemma K_filterStep_newURLs st x :
  newURLs (filterStep c st x) = newURLs st ++ (if retained c x then [x] else []).
Proof.
  unfold filterStep, retained. simpl.
  destruct (_ && _); [reflexivity | now rewrite app_nil_r].
Qed.

Lemma K_filterLoop_newURLs l st :
  newURLs (fold_left (filterStep c) l st) = newURLs st ++ List.filter (retained c) l.
Proof.
  revert st. induction l as [|x l IH]; intros st; simpl.
  - now rewrite app_nil_r.
  - rewrite IH, K_filterStep_newURLs, <- app_assoc.
    destruct (retained c x); reflexivity.
Qed.

(** The counters of the loop: how many mirrors speak HTTP, how many are
    complete. *)
Lemma K_filterLoop_counts l st :
  httpCount (fold_left (filterStep c) l st)
  = httpCount st + Z.of_nat (length (List.filter (fun x => String.eqb (Protocol x) "http") l))
  /\ completeCount (fold_left (filterStep c) l st)
     = completeCount st
       + Z.of_nat (length (List.filter (fun x => Float64.geb (Completion x) (minCompletion c)) l)).
Proof.
  revert st. induction l as [|x l IH]; intros st; simpl.
  - lia.
  - destruct (IH (filterStep c st x)) as [-> ->]. simpl.
    destruct (String.eqb _ _), (Float64.geb _ _); simpl length; lia.
Qed.
(** The country list of [makeCountryHandler]: the mirrors of the snapshot
    with that country code, when the threshold is at least the handler's
    own 1.0 (it is 1.0 unless configured). *)
Lemma K_countryMirrors m s code :
  getData c (Decoded m) = Ok s ->
  Float64.geb (minCompletion c) 1%float = true ->
  countryMirrors s code
  = List.filter (fun x => String.eqb (CountryCode x) code) (URLs s).
Proof.
  intros [= <-] Hthr. unfold countryMirrors, filterLoop. simpl.
  rewrite K_filterLoop_newURLs. simpl.
  apply filter_ext_in. intros x Hx. apply filter_In in Hx as [_ Hx].
  unfold retained in Hx. apply andb_true_iff in Hx as [_ Hx].
  rewrite (geb_trans _ _ _ Hx Hthr). apply andb_true_r.
Qed.

End KaleidoscopeBuilder.

(** With a lower threshold the handler's own test [Completion >= 1.0]
    leaves out mirrors that the snapshot holds. *)
Example K_countryMirrors_low_threshold :
  let c := {| Kaleidoscope.url := ""; Kaleidoscope.interval := 3600;
              Kaleidoscope.minCompletion := 0.5%float |} in
  let x := Scenario.mirror "http" "http://five.example/" "US" 0.75%float 3%float in
  exists s,
    Kaleidoscope.getData c (Kaleidoscope.Decoded (Scenario.kstatus [x])) = Ok s
    /\ Kaleidoscope.URLs s = [x]
    /\ Kaleidoscope.countryMirrors s "US" = [].
Proof. eexists. repeat split. Qed.

Section Part000Builder.
Import Part000.
Variable c : config.

Lemma filterStep_newMirrors st x :
  newMirrors (filterStep c st x) = newMirrors st ++ (if retained c x then [x] else []).
Proof.
  unfold filterStep, retained. simpl.
  destruct (_ && _); [reflexivity | now rewrite app_nil_r].
Qed.

Lemma filterStep_bucket st x code :
  bucket (countries (filterStep c st x)) code
  = bucket (countries st) code
      ++ (if retained c x && has_code code x then [x] else []).
Proof.
  unfold filterStep, retained, bucket, has_code. simpl.
  destruct (_ && _); simpl; [|now rewrite app_nil_r].
  destruct (String.eqb_spec (CountryCode x) code) as [->|Hne].
  - rewrite lookup_insert_eq. simpl.
    destruct (countries st !! code); reflexivity.
  - rewrite lookup_insert_ne by assumption. now rewrite app_nil_r.
Qed.

Lemma filterStep_no_empty_bucket st x :
  no_empty_bucket (countries st) -> no_empty_bucket (countries (filterStep c st x)).
Proof.
  intros Hne code l. unfold filterStep. simpl.
  destruct (_ && _); [|apply Hne].
  destruct (decide (CountryCode x = code)) as [->|Hd].
  - rewrite lookup_insert_eq. intros [= <-].
    intros E. apply app_eq_nil in E as [_ E]. discriminate E.
  - rewrite lookup_insert_ne by assumption. apply Hne.
Qed.

Lemma filterLoop_spec l st :
  let st' := fold_left (filterStep c) l st in
  newMirrors st' = newMirrors st ++ List.filter (retained c) l
  /\ (forall code,
         bucket (countries st') code
         = bucket (countries st) code
             ++ List.filter (has_code code) (List.filter (retained c) l))
  /\ (no_empty_bucket (countries st) -> no_empty_bucket (countries st')).
Proof.
  revert st. induction l as [|x l IH]; intros st; simpl.
  - repeat split; intros; now rewrite ?app_nil_r.
  - destruct (IH (filterStep c st x)) as (IH1 & IH2 & IH3).
    repeat split.
    + rewrite IH1, filterStep_newMirrors, <- app_assoc.
      destruct (retained c x); reflexivity.
    + intros code. rewrite IH2, filterStep_bucket, <- app_assoc.
      destruct (retained c x); simpl; [|reflexivity].
      destruct (has_code code x); reflexivity.
    + intros Hne. apply IH3. now apply filterStep_no_empty_bucket.
Qed.

(** What [getMirrorInfo] builds from a decoded payload. *)
Lemma getMirrorInfo_Decoded m :
  exists s,
    getMirrorInfo c (Decoded m) = Ok s
    /\ Global s = List.filter (retained c) (Go.Stable (Go.Reverse ByScore_Less) (Global m))
    /\ (forall code, bucket (Countries s) code = List.filter (has_code code) (Global s))
    /\ no_empty_bucket (Countries s).
Proof.
  eexists. split; [reflexivity|]. simpl.
  destruct (filterLoop_spec (Go.Stable (Go.Reverse ByScore_Less) (Global m))
              {| newMirrors := []; countries := ∅; httpCount := 0; completeCount := 0 |})
    as (H1 & H2 & H3).
  simpl in H1, H2, H3. unfold filterLoop.
  repeat split.
  - exact H1.
  - intros code. rewrite H2, H1. unfold bucket. now rewrite lookup_empty.
  - apply H3. intros code l. rewrite lookup_empty. discriminate.
Qed.

Lemma retained_spec x :
  retained c x = true
  <-> Protocol x = "http" /\ Float64.geb (Completion x) (minCompletion c) = true.
Proof.
  unfold retained. rewrite andb_true_iff, String.eqb_eq. reflexivity.
Qed.
End Part000Builder.

(** ** The snapshot: filter, country index, order *)

(** C1. For every upstream payload the list of mirrors of the snapshot
    holds exactly the input records whose protocol is ["http"] and whose
    completion is at least the configured threshold: every retained record
    satisfies both, and no record that satisfies both is dropped.
    [getData] keeps them in the upstream order, [getMirrorInfo] keeps each
    of them once, in sorted order. *)
Theorem C1_global_list_exact :
  (forall c m, exists s,
      Kaleidoscope.getData c (Kaleidoscope.Decoded m) = Ok s
      /\ Kaleidoscope.URLs s
         = List.filter (Kaleidoscope.retained c) (Kaleidoscope.URLs m)
      /\ forall x,
          In x (Kaleidoscope.URLs s)
          <-> In x (Kaleidoscope.URLs m)
              /\ Protocol x = "http"
              /\ Float64.geb (Completion x) (Kaleidoscope.minCompletion c) = true)
  /\
  (forall c m, exists s,
      Part000.getMirrorInfo c (Part000.Decoded m) = Ok s
      /\ Permutation (Part000.Global s)
                     (List.filter (Part000.retained c) (Part000.Global m))
      /\ forall x,
          In x (Part000.Global s)
          <-> In x (Part000.Global m)
              /\ Protocol x = "http"
              /\ Float64.geb (Completion x) (Part000.minCompletion c) = true).
Proof.
  split; intros c m.
  - eexists. split; [reflexivity|]. simpl. unfold Kaleidoscope.filterLoop.
    rewrite K_filterLoop_newURLs. simpl. split; [reflexivity|].
    intros x. rewrite filter_In. unfold Kaleidoscope.retained.
    now rewrite andb_true_iff, String.eqb_eq.
  - destruct (getMirrorInfo_Decoded c m) as (s & Hs & HG & _).
    exists s. split; [exact Hs|].
    assert (HP : Permutation (Part000.Global s)
                   (List.filter (Part000.retained c) (Part000.Global m))).
    { rewrite HG. apply filter_Permutation_list, Stable_perm. }
    split; [exact HP|].
    intros x. rewrite <- retained_spec, <- filter_In.
    split; intros Hx.
    + eapply Permutation_in; eassumption.
    + eapply Permutation_in; [symmetry|]; eassumption.
Qed.

(** The country index of part_000. In every snapshot built by
    [getMirrorInfo], for every country code the bucket of the index holds
    exactly the members of the global list with that country code, in the
    same relative order; a record is in the global list if and only if it
    is in some bucket. *)
Theorem country_index_exact :
  forall c m, exists s,
    Part000.getMirrorInfo c (Part000.Decoded m) = Ok s
    /\ (forall code,
           Part000.bucket (Part000.Countries s) code
           = List.filter (fun x => String.eqb (CountryCode x) code) (Part000.Global s))
    /\ (forall x,
           In x (Part000.Global s)
           <-> exists code l, Part000.Countries s !! code = Some l /\ In x l).
Proof.
  intros c m.
  destruct (getMirrorInfo_Decoded c m) as (s & Hs & _ & HB & _).
  exists s. split; [exact Hs|]. split; [exact HB|].
  intros x. split.
  - intros Hx. exists (CountryCode x).
    specialize (HB (CountryCode x)). unfold Part000.bucket in HB.
    assert (Hin : In x (List.filter (Part000.has_code (CountryCode x)) (Part000.Global s))).
    { apply filter_In. split; [exact Hx|]. unfold Part000.has_code. apply String.eqb_refl. }
    rewrite <- HB in Hin.
    destruct (Part000.Countries s !! CountryCode x) as [l|]; simpl in Hin.
    + exists l. split; [reflexivity | exact Hin].
    + destruct Hin.
  - intros (code & l & Hl & Hx).
    specialize (HB code). unfold Part000.bucket in HB. rewrite Hl in HB.
    simpl in HB. rewrite HB in Hx. apply filter_In in Hx. tauto.
Qed.

(** C2, the behaviour of kaleidoscope.go. The country list that
    [makeCountryHandler] collects from the snapshot is not the members of
    the snapshot with that country code: the loop also tests
    [Completion >= 1.0], a constant, where [getData] used the configured
    threshold. With the threshold at 0.5 a mirror of the United States that
    is 75% complete is retained in the snapshot, yet the list for [US] is
    empty and the request for [/country/us] is answered with 404. *)
Theorem C2_country_list_drops_retained_mirror :
  let c := {| Kaleidoscope.url := "https://www.archlinux.org/mirrors/status/json/";
              Kaleidoscope.interval := 3600;
              Kaleidoscope.minCompletion := 0.5%float |} in
  let x := Scenario.mirror "http" "http://five.example/" "US" 0.75%float 3%float in
  exists s,
    Kaleidoscope.getData c (Kaleidoscope.Decoded (Scenario.kstatus [x])) = Ok s
    /\ Kaleidoscope.URLs s = [x]
    /\ List.filter (fun m => String.eqb (CountryCode m) "US") (Kaleidoscope.URLs s) = [x]
    /\ Kaleidoscope.countryMirrors s "US" = []
    /\ forall draw,
        Kaleidoscope.countryHandler (Some s) draw (Scenario.get "/country/us")
        = ([Go.NotFound], Go.Return).
Proof.
  intros c x. eexists. split; [reflexivity|].
  repeat split.
Qed.

(** C10. In every snapshot built by [getMirrorInfo] every key of the
    country index maps to a non-empty bucket, so [country[0]] in the country
    selector never indexes an empty list: the selector does not panic. *)
Theorem C10_buckets_non_empty :
  forall c m, exists s,
    Part000.getMirrorInfo c (Part000.Decoded m) = Ok s
    /\ (forall code l, Part000.Countries s !! code = Some l -> l <> [])
    /\ (forall r msg, Part000.countrySelector s r <> Part000.Panicked msg).
Proof.
  intros c m.
  destruct (getMirrorInfo_Decoded c m) as (s & Hs & _ & _ & HN).
  exists s. split; [exact Hs|]. split; [exact HN|].
  intros r msg. unfold Part000.countrySelector.
  destruct (Part000.countryRe (Go.Path r)) as [[res0 res1]|]; [|discriminate].
  destruct (Part000.Countries s !! Go.ToUpper res1) as [country|] eqn:E; [|discriminate].
  destruct country as [|mirror country]; [|discriminate].
  now apply HN in E.
Qed.

(** C7. [getMirrorInfo] sorts before it filters: the global list of the
    snapshot is ordered by score, highest first (no record has a lower score
    than a later one), and the retained records with equal scores are in
    their upstream order. The scores of a decoded payload are numbers. *)
Theorem C7_sorted_by_score_stable :
  forall c m,
    Forall (fun x => Float64.is_nan (Score x) = false) (Part000.Global m) ->
    exists s,
      Part000.getMirrorInfo c (Part000.Decoded m) = Ok s
      /\ StronglySorted
           (fun earlier later => Float64.ltb (Score earlier) (Score later) = false)
           (Part000.Global s)
      /\ forall score,
          List.filter (fun x => Float64.eqb score (Score x)) (Part000.Global s)
          = List.filter (fun x => Float64.eqb score (Score x))
                        (List.filter (Part000.retained c) (Part000.Global m)).
Proof.
  intros c m Hnan.
  destruct (getMirrorInfo_Decoded c m) as (s & Hs & HG & _).
  exists s. split; [exact Hs|]. rewrite HG. split.
  - apply StronglySorted_filter.
    apply (Stable_sorted (Go.Reverse Part000.ByScore_Less)
                         (fun x => Float64.is_nan (Score x) = false)).
    + intros x y. unfold Go.Reverse, Part000.ByScore_Less. apply ltb_asym.
    + intros x y z Hy Hxy Hyz. unfold Go.Reverse, Part000.ByScore_Less in *.
      now apply ltb_neg_trans with (b := Score y).
    + exact Hnan.
  - intros score.
    rewrite !(filter_comm_list (fun x => Float64.eqb score (Score x))).
    f_equal.
    apply (Stable_stable (Go.Reverse Part000.ByScore_Less)
                         (fun v x => Float64.eqb v (Score x)) score).
    intros x y Hx Hy. unfold Go.Reverse, Part000.ByScore_Less.
    now apply eqb_ltb_excl with (v := score).
Qed.

Lemma C7_sorted_by_score_stable_witness :
  Forall (fun x => Float64.is_nan (Score x) = false) (Part000.Global Scenario.upstream)
  /\ exists s,
      Part000.getMirrorInfo Scenario.conf (Part000.Decoded Scenario.upstream) = Ok s
      /\ StronglySorted
           (fun earlier later => Float64.ltb (Score earlier) (Score later) = false)
           (Part000.Global s)
      /\ forall score,
          List.filter (fun x => Float64.eqb score (Score x)) (Part000.Global s)
          = List.filter (fun x => Float64.eqb score (Score x))
                        (List.filter (Part000.retained Scenario.conf)
                                     (Part000.Global Scenario.upstream)).
Proof.
  split.
  - repeat constructor.
  - apply (C7_sorted_by_score_stable Scenario.conf Scenario.upstream).
    repeat constructor.
Defined.

(** The scenario of the specification: of three mirrors upstream only the
    first is a complete HTTP mirror. *)
Example scenario_three_mirrors :
  Part000.getMirrorInfo Scenario.conf
    (Part000.Decoded (Scenario.payload [Scenario.entry1; Scenario.entry2; Scenario.entry3]))
  = Ok (Scenario.snapshot [Scenario.entry1] {[ "US" := [Scenario.entry1] ]}).
Proof. vm_compute. reflexivity. Qed.

(** Highest score first; [entry1] stays before [entry4], which has the same
    score. *)
Example scenario_built_order :
  Part000.Global Scenario.built
  = [Scenario.example_mirror; Scenario.entry1; Scenario.entry4]
  /\ Part000.bucket (Part000.Countries Scenario.built) "US"
     = [Scenario.example_mirror; Scenario.entry1]
  /\ Part000.bucket (Part000.Countries Scenario.built) "DE" = [Scenario.entry4]
  /\ Part000.bucket (Part000.Countries Scenario.built) "FR" = [].
Proof. vm_compute. repeat split. Qed.

(** ** The refresh loop *)

Section RefreshLoop.

Lemma K_getData_failure c up e :
  Kaleidoscope.getData c up = Err e
  <-> up = Kaleidoscope.TransportError e \/ up = Kaleidoscope.DecodeError e.
Proof.
  destruct up; simpl; split; intros H;
    try (injection H as <-; tauto); try discriminate H;
    destruct H as [H|H]; try discriminate H; now injection H as ->.
Qed.

Lemma getMirrorInfo_failure c up e :
  Part000.getMirrorInfo c up = Err e
  <-> up = Part000.TransportError e \/ up = Part000.DecodeError e.
Proof.
  destruct up; simpl; split; intros H;
    try (injection H as <-; tauto); try discriminate H;
    destruct H as [H|H]; try discriminate H; now injection H as ->.
Qed.

Lemma K_update_cons c status up ups :
  Kaleidoscope.update c status (up :: ups)
  = (fst (Kaleidoscope.update c (fst (Kaleidoscope.update_iteration c status up)) ups),
     snd (Kaleidoscope.update_iteration c status up)
       ++ snd (Kaleidoscope.update c (fst (Kaleidoscope.update_iteration c status up)) ups)).
Proof.
  simpl. destruct (Kaleidoscope.update_iteration c status up) as [status1 ev1].
  simpl. destruct (Kaleidoscope.update c status1 ups). reflexivity.
Qed.

Lemma update_cons c st up ups :
  Part000.update c st (up :: ups)
  = (fst (Part000.update c (fst (Part000.update_iteration c st up)) ups),
     snd (Part000.update_iteration c st up)
       ++ snd (Part000.update c (fst (Part000.update_iteration c st up)) ups)).
Proof.
  simpl. destruct (Part000.update_iteration c st up) as [st1 ev1].
  simpl. destruct (Part000.update c st1 ups). reflexivity.
Qed.

End RefreshLoop.

(** C9. A fetch failure (transport or decode error) leaves the published
    snapshot as it was, for the readers to load (a handler answers after
    the failure as it did before), and does not end the refresh loop: the
    failed iteration stores nothing and the loop goes on with its further
    iterations on the same snapshot. *)
Theorem C9_failed_fetch_keeps_snapshot `{Go.NetURL} :
  (forall c status up e ups,
      up = Kaleidoscope.TransportError e \/ up = Kaleidoscope.DecodeError e ->
      fst (Kaleidoscope.update_iteration c status up) = status
      /\ (forall draw r,
             Kaleidoscope.globalHandler
               (fst (Kaleidoscope.update_iteration c status up)) draw r
             = Kaleidoscope.globalHandler status draw r
             /\ Kaleidoscope.countryHandler
                  (fst (Kaleidoscope.update_iteration c status up)) draw r
                = Kaleidoscope.countryHandler status draw r)
      /\ (forall m, ~ In (Kaleidoscope.Store m)
                      (snd (Kaleidoscope.update_iteration c status up)))
      /\ Kaleidoscope.update c status (up :: ups)
         = (fst (Kaleidoscope.update c status ups),
            snd (Kaleidoscope.update_iteration c status up)
              ++ snd (Kaleidoscope.update c status ups)))
  /\
  (forall c st up e ups,
      up = Part000.TransportError e \/ up = Part000.DecodeError e ->
      fst (Part000.update_iteration c st up) = st
      /\ (forall route r,
             Part000.serve route
               (Part000.status (fst (Part000.update_iteration c st up))) r
             = Part000.serve route (Part000.status st) r)
      /\ (forall m, ~ In (Part000.Store m)
                      (snd (Part000.update_iteration c st up)))
      /\ Part000.update c st (up :: ups)
         = (fst (Part000.update c st ups),
            snd (Part000.update_iteration c st up)
              ++ snd (Part000.update c st ups))).
Proof.
  split.
  - intros c status up e ups Hup. apply (proj2 (K_getData_failure c up e)) in Hup.
    assert (E : Kaleidoscope.update_iteration c status up
                = (status, [Kaleidoscope.LogPrint "Performing auto update...";
                            Kaleidoscope.Fetch; Kaleidoscope.LogPrint e])).
    { unfold Kaleidoscope.update_iteration. now rewrite Hup. }
    rewrite K_update_cons, E. simpl. repeat split.
    intros m [Hm|[Hm|[Hm|[]]]]; discriminate Hm.
  - intros c st up e ups Hup. apply (proj2 (getMirrorInfo_failure c up e)) in Hup.
    assert (E : Part000.update_iteration c st up
                = (st, [Part000.LogPrint "Performing auto update...";
                        Part000.Fetch; Part000.LogPrint e])).
    { unfold Part000.update_iteration. now rewrite Hup. }
    rewrite update_cons, E. simpl. repeat split.
    intros m [Hm|[Hm|[Hm|[]]]]; discriminate Hm.
Qed.

Lemma C9_failed_fetch_keeps_snapshot_witness :
  fst (Kaleidoscope.update_iteration Scenario.kconf
         (Some (Scenario.kstatus [Scenario.entry1]))
         (Kaleidoscope.DecodeError "unexpected EOF"))
  = Some (Scenario.kstatus [Scenario.entry1])
  /\ fst (Part000.update_iteration Scenario.conf
            {| Part000.status := Some Scenario.built; Part000.once := true |}
            (Part000.TransportError "connection refused"))
     = {| Part000.status := Some Scenario.built; Part000.once := true |}.
Proof.
  destruct (C9_failed_fetch_keeps_snapshot (H := SimpleURL.net_url)) as [HK HP]. split.
  - apply (HK Scenario.kconf (Some (Scenario.kstatus [Scenario.entry1]))
              (Kaleidoscope.DecodeError "unexpected EOF") "unexpected EOF" []).
    right. reflexivity.
  - apply (HP Scenario.conf
              {| Part000.status := Some Scenario.built; Part000.once := true |}
              (Part000.TransportError "connection refused") "connection refused" []).
    left. reflexivity.
Defined.

(** While the fetches fail the loop never waits for the ticker. *)
Lemma update_failures_never_wait c st ups :
  Forall (fun up => exists e, Part000.getMirrorInfo c up = Err e) ups ->
  ~ In Part000.TickerRecv (snd (Part000.update c st ups)).
Proof.
  intros H. induction H as [|up ups [e He] _ IH].
  - simpl. tauto.
  - assert (E : Part000.update_iteration c st up
                = (st, [Part000.LogPrint "Performing auto update...";
                        Part000.Fetch; Part000.LogPrint e])).
    { unfold Part000.update_iteration. now rewrite He. }
    rewrite update_cons, E. simpl.
    intros [H|[H|[H|H]]]; try discriminate H. now apply IH.
Qed.

Lemma K_update_failures_never_wait c status ups :
  Forall (fun up => exists e, Kaleidoscope.getData c up = Err e) ups ->
  ~ In Kaleidoscope.TickerRecv (snd (Kaleidoscope.update c status ups)).
Proof.
  intros H. induction H as [|up ups [e He] _ IH].
  - simpl. tauto.
  - assert (E : Kaleidoscope.update_iteration c status up
                = (status, [Kaleidoscope.LogPrint "Performing auto update...";
                            Kaleidoscope.Fetch; Kaleidoscope.LogPrint e])).
    { unfold Kaleidoscope.update_iteration. now rewrite He. }
    rewrite K_update_cons, E. simpl.
    intros [H|[H|[H|H]]]; try discriminate H. now apply IH.
Qed.

(** After a successful fetch the loop waits for the ticker before the next
    one. *)
Lemma update_success_waits c st m :
  exists before,
    snd (Part000.update_iteration c st (Part000.Decoded m))
    = before ++ [Part000.TickerRecv].
Proof.
  unfold Part000.update_iteration. simpl.
  destruct (Part000.once st); simpl;
    match goal with |- exists before, ?l = _ => exists (removelast l) end;
    reflexivity.
Qed.

(** C6, the behaviour of the code. After a failed fetch the loop does not
    wait for the ticker: [continue] skips [<-ticker.C], and the next fetch
    follows the failed one at once, in both variants and for both kinds of
    failure. *)
Theorem C6_failed_fetch_retried_at_once :
  (forall c status e up,
      exists rest,
        snd (Kaleidoscope.update c status [Kaleidoscope.TransportError e; up])
        = [Kaleidoscope.LogPrint "Performing auto update..."; Kaleidoscope.Fetch;
           Kaleidoscope.LogPrint e;
           Kaleidoscope.LogPrint "Performing auto update..."; Kaleidoscope.Fetch] ++ rest)
  /\
  (forall c st e up,
      exists rest,
        snd (Part000.update c st [Part000.TransportError e; up])
        = [Part000.LogPrint "Performing auto update..."; Part000.Fetch;
           Part000.LogPrint e;
           Part000.LogPrint "Performing auto update..."; Part000.Fetch] ++ rest)
  /\
  (forall c st e up,
      exists rest,
        snd (Part000.update c st [Part000.DecodeError e; up])
        = [Part000.LogPrint "Performing auto update..."; Part000.Fetch;
           Part000.LogPrint e;
           Part000.LogPrint "Performing auto update..."; Part000.Fetch] ++ rest)
  /\
  (forall c status e up,
      exists rest,
        snd (Kaleidoscope.update c status [Kaleidoscope.DecodeError e; up])
        = [Kaleidoscope.LogPrint "Performing auto update..."; Kaleidoscope.Fetch;
           Kaleidoscope.LogPrint e;
           Kaleidoscope.LogPrint "Performing auto update..."; Kaleidoscope.Fetch] ++ rest).
Proof.
  repeat split.
  - intros c status e up. rewrite !K_update_cons.
    unfold Kaleidoscope.update_iteration.
    destruct (Kaleidoscope.getData c up); simpl; eexists; reflexivity.
  - intros c st e up. rewrite !update_cons.
    unfold Part000.update_iteration.
    destruct (Part000.getMirrorInfo c up); simpl; eexists; reflexivity.
  - intros c st e up. rewrite !update_cons.
    unfold Part000.update_iteration.
    destruct (Part000.getMirrorInfo c up); simpl; eexists; reflexivity.
  - intros c status e up. rewrite !K_update_cons.
    unfold Kaleidoscope.update_iteration.
    destruct (Kaleidoscope.getData c up); simpl; eexists; reflexivity.
Qed.

(** ** The handlers on an empty or missing snapshot *)

(** [redirector] answers an empty snapshot with 500 and returns. *)
Lemma redirector_empty_snapshot `{Go.NetURL} s sel path :
  Part000.Global s = [] ->
  Part000.redirector (Some s) sel (Scenario.get path)
  = ([Go.Error "Internal Server Error" 500], Go.Return).
Proof. intros E. unfold Part000.redirector. simpl. now rewrite E. Qed.

(** C3, the behaviour of [makeGlobalHandler] in kaleidoscope.go. On an
    empty snapshot a GET on the global route writes the 500 and, for want of
    a [return], goes on to [rand.Intn(0)], which panics. *)
Theorem C3_global_handler_goes_on_after_500 :
  forall status draw path,
    Kaleidoscope.URLs status = [] ->
    Kaleidoscope.globalHandler (Some status) draw (Scenario.get path)
    = ([Go.Error "Internal Server Error" 500], Go.Panic "invalid argument to Intn").
Proof.
  intros status draw path E.
  unfold Kaleidoscope.globalHandler, Kaleidoscope.methodOnly,
    Kaleidoscope.makeGlobalHandler. simpl. now rewrite E.
Qed.

Lemma C3_global_handler_goes_on_after_500_witness :
  Kaleidoscope.URLs (Scenario.kstatus []) = []
  /\ Kaleidoscope.globalHandler (Some (Scenario.kstatus [])) 7 (Scenario.get "/global")
     = ([Go.Error "Internal Server Error" 500], Go.Panic "invalid argument to Intn").
Proof.
  split; [reflexivity|].
  apply (C3_global_handler_goes_on_after_500 (Scenario.kstatus []) 7 "/global").
  reflexivity.
Defined.

(** C5 as stated fails: a handler that loads the value before the first
    [Store] gets no snapshot, writes no response and panics; an empty
    snapshot would have been answered with 500. *)
Lemma C5_counterexample :
  Kaleidoscope.globalHandler None 0 (Scenario.get "/global")
  = ([], Go.Panic Go.nil_assertion)
  /\ Part000.globalHandler (H := SimpleURL.net_url) None (Scenario.get "/global/")
     = ([], Go.Panic Go.nil_assertion)
  /\ Part000.globalHandler (H := SimpleURL.net_url) (Some Scenario.empty_snapshot)
                           (Scenario.get "/global/")
     = ([Go.Error "Internal Server Error" 500], Go.Return)
  /\ ~ (exists call,
          In call (fst (Part000.globalHandler (H := SimpleURL.net_url) None
                          (Scenario.get "/global/")))
          /\ Go.status_of call = 500).
Proof.
  repeat split; try reflexivity.
  intros (call & [] & _).
Qed.

Section Process.
Context `{Go.NetURL}.
Import Part000.

Lemma boot_ready : ready boot.
Proof. split; simpl; discriminate. Qed.

Lemma step_ready c sys a sys' : ready sys -> step c sys a sys' -> ready sys'.
Proof.
  intros [Hs Hl] Hstep. inversion Hstep; subst; try (split; assumption).
  - unfold update_iteration.
    destruct (getMirrorInfo c up) as [newM|e]; simpl.
    + split; simpl; intros; eauto.
    + split; assumption.
  - split; simpl; auto.
Qed.

Lemma run_ready c sys tr sys' : ready sys -> run c sys tr sys' -> ready sys'.
Proof.
  intros Hr Hrun. induction Hrun as [|sys a sys' tr sys'' Hstep _ IH]; [assumption|].
  apply IH. now apply step_ready with (c := c) (sys := sys) (a := a).
Qed.

Lemma run_served c sys tr sys' :
  ready sys -> run c sys tr sys' ->
  forall route r out,
    In (Serve route r out) tr -> exists m, out = serve route (Some m) r.
Proof.
  intros Hr Hrun. induction Hrun as [|sys a sys' tr sys'' Hstep _ IH];
    intros route r out Hin; [destruct Hin|].
  destruct Hin as [->|Hin].
  - inversion Hstep; subst.
    destruct Hr as [Hs Hl].
    destruct (Hs (Hl ltac:(assumption))) as [m Hm].
    exists m. now rewrite Hm.
  - apply (IH (step_ready c sys a sys' Hr Hstep) route r out Hin).
Qed.
End Process.

(** C5, amended. The value has no stand-in for a snapshot that is not
    there: until the first [Store] it holds nothing. In part_000 [main]
    starts to serve only once the refresh loop has stored its first
    snapshot and sent on [done]: the process does not serve at boot,
    whenever it serves a snapshot is stored, and every request is served on
    a stored snapshot. *)
Theorem C5_served_only_after_first_store `{Go.NetURL} :
  forall c tr sys,
    Part000.run c Part000.boot tr sys ->
    (Part000.status (Part000.loop Part000.boot) = None
     /\ Part000.serving Part000.boot = false)
    /\ (Part000.serving sys = true ->
        exists m, Part000.status (Part000.loop sys) = Some m)
    /\ (forall route r out,
           In (Part000.Serve route r out) tr ->
           exists m, out = Part000.serve route (Some m) r).
Proof.
  intros c tr sys Hrun. split; [split; reflexivity|]. split.
  - destruct (run_ready c _ _ _ boot_ready Hrun) as [Hs Hl]. auto.
  - apply (run_served c _ _ _ boot_ready Hrun).
Qed.

Lemma C5_served_only_after_first_store_witness :
  let sys := {| Part000.loop := {| Part000.status := Some Scenario.built;
                                   Part000.once := true |};
                Part000.serving := true |} in
  let r := Scenario.get "/global/" in
  let out := Part000.serve (H := SimpleURL.net_url) Part000.GlobalRoute
                           (Some Scenario.built) r in
  let tr := [Part000.Refresh (Part000.TransportError "connection refused");
             Part000.Refresh (Part000.Decoded Scenario.upstream);
             Part000.Listen;
             Part000.Serve Part000.GlobalRoute r out] in
  Part000.run (H := SimpleURL.net_url) Scenario.conf Part000.boot tr sys
  /\ (exists m, Part000.status (Part000.loop sys) = Some m)
  /\ (exists m, out = Part000.serve (H := SimpleURL.net_url) Part000.GlobalRoute (Some m) r).
Proof.
  intros sys r out tr.
  assert (Hrun : Part000.run (H := SimpleURL.net_url) Scenario.conf Part000.boot tr sys).
  { unfold tr.
    eapply Part000.run_cons; [apply Part000.step_refresh|].
    eapply Part000.run_cons; [apply Part000.step_refresh|].
    eapply Part000.run_cons; [apply Part000.step_listen; reflexivity|].
    eapply Part000.run_cons;
      [apply (Part000.step_serve Scenario.conf sys Part000.GlobalRoute r); reflexivity|].
    apply Part000.run_nil. }
  split; [exact Hrun|].
  destruct (C5_served_only_after_first_store (H := SimpleURL.net_url)
              Scenario.conf tr sys Hrun) as (_ & Hs & Hserve).
  split.
  - apply Hs. reflexivity.
  - apply (Hserve Part000.GlobalRoute r out). unfold tr. simpl. tauto.
Defined.

(** ** The country selector *)

Section CountryCode.
Import Go.

(** [strings.ToUpper] turns a lowercase letter into the uppercase one. *)
Lemma upper_ascii_lower a :
  is_lower a = true ->
  is_upper (upper_ascii a) = true
  /\ nat_of_ascii (upper_ascii a) = (nat_of_ascii a - 32)%nat.
Proof.
  destruct a as [[] [] [] [] [] [] [] []]; intros H;
    try discriminate H; split; reflexivity.
Qed.

Lemma lower_not_upper a : is_upper a = true -> is_lower a = false.
Proof.
  destruct a as [[] [] [] [] [] [] [] []]; intros H;
    try discriminate H; reflexivity.
Qed.

Lemma countryRe_spec p res0 code :
  Part000.countryRe p = Some (res0, code) <-> Part000.lower_code_path p res0 code.
Proof.
  unfold Part000.lower_code_path. split.
  - destruct p as [|c [|a [|b rest]]]; simpl; try discriminate.
    destruct (Ascii.eqb_spec c "/"%char) as [->|]; simpl; [|discriminate].
    destruct (is_lower a) eqn:La; simpl; [|discriminate].
    destruct (is_lower b) eqn:Lb; simpl; [|discriminate].
    destruct rest as [|d sub]; [intros [= <- <-]; eauto 12|].
    destruct (Ascii.eqb_spec d "/"%char) as [->|]; [|discriminate].
    intros [= <- <-]. exists a, b, (String "/" sub). eauto 12.
  - intros (a & b & rest & -> & La & Lb & -> & [[-> ->]|(sub & -> & ->)]);
      simpl; rewrite La, Lb; reflexivity.
Qed.

(** In kaleidoscope.go the pattern is [/([A-Za-z]{2})$]: a final slash
    and two letters of either case. *)
Lemma K_countryRe_suffix pre a b :
  Kaleidoscope.is_letter a = true -> Kaleidoscope.is_letter b = true ->
  Kaleidoscope.countryRe (pre ++ String "/" (String a (String b "")))%string
  = Some (String "/" (String a (String b "")), String a (String b "")).
Proof.
  intros La Lb. induction pre as [|c pre IH].
  - simpl. now rewrite La, Lb.
  - change ((String c pre ++ ?s)%string) with (String c (pre ++ s)%string).
    cbn [Kaleidoscope.countryRe].
    destruct pre as [|c1 [|c2 [|c3 pre]]]; exact IH.
Qed.
End CountryCode.

(** C4 as stated fails on part_000: [/us] selects a mirror of the United
    States, [/US] does not match the pattern and is answered with 404. *)
Lemma C4_counterexample :
  Part000.countrySelector Scenario.built (Scenario.get "/us")
  = Part000.Selected Scenario.example_mirror (Scenario.get "")
  /\ Part000.countryRe "/US" = None
  /\ Part000.countrySelector Scenario.built (Scenario.get "/US")
     = Part000.Failed "invalid country code []"
  /\ Part000.countryHandler (H := SimpleURL.net_url) (Some Scenario.built)
                            (Scenario.get "/country/US")
     = ([Go.Error "invalid country code []" 404], Go.Return).
Proof. vm_compute. repeat split. Qed.

(** C4, amended. The country selector of part_000 finds a code only in a
    path that starts with a slash and two lowercase letters followed by a
    slash or the end of the path; it looks the code up in uppercase; a path
    without such a match fails with the invalid-country-code error, which
    [redirector] answers with 404 on a non-empty snapshot. The handler of
    kaleidoscope.go takes a final slash and two letters of either case, and
    answers a path without them with 404. *)
Theorem C4_country_code_lowercase_only `{Go.NetURL} :
  forall p,
    (forall res0 code,
        Part000.countryRe p = Some (res0, code) <-> Part000.lower_code_path p res0 code)
    /\ (forall s res0 code,
           Part000.countryRe p = Some (res0, code) ->
           Part000.countrySelector s (Scenario.get p)
           = match Part000.Countries s !! Go.ToUpper code with
             | None => Part000.Failed "country not found"
             | Some [] => Part000.Panicked "index out of range"
             | Some (mirror :: _) =>
                 Part000.Selected mirror
                   (Scenario.get (Go.slice_from (String.length res0) p))
             end)
    /\ (forall a b,
           Go.is_lower a = true -> Go.is_lower b = true ->
           Go.ToUpper (String a (String b ""))
           = String (Go.upper_ascii a) (String (Go.upper_ascii b) "")
           /\ Go.is_upper (Go.upper_ascii a) = true
           /\ Go.is_upper (Go.upper_ascii b) = true)
    /\ (forall a b rest,
           Go.is_upper a = true \/ Go.is_upper b = true ->
           Part000.countryRe (String "/" (String a (String b rest))) = None)
    /\ (Part000.countryRe p = None ->
        forall s,
          Part000.countrySelector s (Scenario.get p)
          = Part000.Failed "invalid country code []"
          /\ (Part000.Global s <> [] ->
              Part000.redirector (Some s) Part000.countrySelector (Scenario.get p)
              = ([Go.Error "invalid country code []" 404], Go.Return)
              /\ Go.status_of (Go.Error "invalid country code []" 404) = 404))
    /\ (forall pre a b,
           Kaleidoscope.is_letter a = true -> Kaleidoscope.is_letter b = true ->
           Kaleidoscope.countryRe (pre ++ String "/" (String a (String b "")))%string
           = Some (String "/" (String a (String b "")), String a (String b "")))
    /\ (Kaleidoscope.countryRe p = None ->
        forall val draw,
          Kaleidoscope.countryHandler val draw (Scenario.get p)
          = ([Go.NotFound], Go.Return)
          /\ Go.status_of Go.NotFound = 404).
Proof.
  intros p. split; [|split; [|split; [|split; [|split; [|split]]]]].
  - intros res0 code. apply countryRe_spec.
  - intros s res0 code E. unfold Part000.countrySelector. simpl. rewrite E.
    destruct (Part000.Countries s !! Go.ToUpper code) as [[|mirror country]|]; reflexivity.
  - intros a b La Lb. split; [reflexivity|].
    split; now apply upper_ascii_lower.
  - intros a b rest [Ua|Ub]; simpl.
    + rewrite (lower_not_upper a Ua). reflexivity.
    + rewrite (lower_not_upper b Ub). now rewrite andb_false_r.
  - intros E s.
    assert (Es : Part000.countrySelector s (Scenario.get p)
                 = Part000.Failed "invalid country code []").
    { unfold Part000.countrySelector. simpl. now rewrite E. }
    split; [exact Es|]. intros Hne. split; [|reflexivity].
    unfold Part000.redirector. rewrite Es. simpl.
    destruct (Part000.Global s); [contradiction|reflexivity].
  - intros pre a b. apply K_countryRe_suffix.
  - intros E val draw. split; [|reflexivity].
    unfold Kaleidoscope.countryHandler, Kaleidoscope.methodOnly,
      Kaleidoscope.makeCountryHandler. simpl. now rewrite E.
Qed.

Lemma C4_country_code_lowercase_only_witness :
  Part000.countryRe "/us/core" = Some ("/us/", "us")
  /\ Part000.countrySelector Scenario.built (Scenario.get "/us/core")
     = Part000.Selected Scenario.example_mirror (Scenario.get "core")
  /\ Part000.countryRe "/US" = None
  /\ Part000.Global Scenario.built <> []
  /\ Part000.redirector (H := SimpleURL.net_url) (Some Scenario.built)
                        Part000.countrySelector (Scenario.get "/US")
     = ([Go.Error "invalid country code []" 404], Go.Return).
Proof.
  split; [reflexivity|]. split; [|split; [reflexivity|split; [discriminate|]]].
  - destruct (C4_country_code_lowercase_only (H := SimpleURL.net_url) "/us/core")
      as (_ & Hsel & _).
    exact (Hsel Scenario.built "/us/" "us" eq_refl).
  - destruct (C4_country_code_lowercase_only (H := SimpleURL.net_url) "/US")
      as (_ & _ & _ & _ & Hno & _).
    destruct (Hno eq_refl Scenario.built) as [_ Hred].
    apply Hred. discriminate.
Defined.

(** ** The redirect *)

(** C8. On a successful country selection the matched country prefix is
    stripped from the request path and the client is redirected, with 302,
    to the mirror's URL whose path is joined with what remains of the
    request path. *)
Theorem C8_country_redirect_target `{Go.NetURL} :
  forall s a b mirror others u,
    Go.is_lower a = true -> Go.is_lower b = true ->
    Part000.Global s <> [] ->
    Part000.Countries s !! Go.ToUpper (String a (String b "")) = Some (mirror :: others) ->
    Go.url_Parse (URL mirror) = Some u ->
    (forall sub,
        Part000.countrySelector s
          (Scenario.get (String "/" (String a (String b (String "/" sub)))))
        = Part000.Selected mirror (Scenario.get sub)
        /\ Part000.countryHandler (Some s)
             (Scenario.get ("/country/" ++ String a (String b (String "/" sub)))%string)
           = ([Go.Redirect
                 (Go.url_String (Go.url_setPath (Go.Join (Go.url_Path u) sub) u)) 302],
              Go.Return))
    /\ Part000.countryHandler (Some s)
         (Scenario.get ("/country/" ++ String a (String b ""))%string)
       = ([Go.Redirect
             (Go.url_String (Go.url_setPath (Go.Join (Go.url_Path u) "") u)) 302],
          Go.Return).
Proof.
  intros s a b mirror others u La Lb Hne Hc Hu.
  assert (Hlen : forall n : nat, (n <? S (S (S (S (S (S (S (S n))))))))%nat = true).
  { intros n. apply Nat.ltb_lt. lia. }
  assert (Hg : (Z.of_nat (length (Part000.Global s)) =? 0) = false).
  { destruct (Part000.Global s); [contradiction|reflexivity]. }
  split; [intros sub; split|].
  - unfold Part000.countrySelector. simpl. rewrite La, Lb. simpl.
    simpl in Hc. rewrite Hc. reflexivity.
  - unfold Part000.countryHandler, Go.StripPrefix, Go.TrimPrefix. simpl.
    rewrite (Hlen (S (S (S (S (String.length sub)))))).
    unfold Part000.redirector. simpl. rewrite Hg.
    unfold Part000.countrySelector. simpl. rewrite La, Lb. simpl.
    simpl in Hc. rewrite Hc, Hu. reflexivity.
  - unfold Part000.countryHandler, Go.StripPrefix, Go.TrimPrefix. simpl.
    unfold Part000.redirector. simpl. rewrite Hg.
    unfold Part000.countrySelector. simpl. rewrite La, Lb. simpl.
    simpl in Hc. rewrite Hc, Hu. reflexivity.
Qed.

(** The scenario of the specification. *)
Lemma C8_country_redirect_target_witness :
  Part000.Countries Scenario.built !! "US"
  = Some [Scenario.example_mirror; Scenario.entry1]
  /\ URL Scenario.example_mirror = "https://mirror.example/archlinux/"
  /\ Part000.countryHandler (H := SimpleURL.net_url) (Some Scenario.built)
       (Scenario.get "/country/us/core/os/x86_64/foo.pkg")
     = ([Go.Redirect "https://mirror.example/archlinux/core/os/x86_64/foo.pkg" 302],
        Go.Return).
Proof.
  split; [vm_compute; reflexivity|]. split; [reflexivity|].
  refine (proj2 (proj1 (C8_country_redirect_target (H := SimpleURL.net_url)
            Scenario.built "u"%char "s"%char
            Scenario.example_mirror [Scenario.entry1]
            {| SimpleURL.Scheme := "https"; SimpleURL.Host := "mirror.example";
               SimpleURL.UPath := "/archlinux/" |}
            eq_refl eq_refl _ _ eq_refl) "core/os/x86_64/foo.pkg")).
  - discriminate.
  - vm_compute. reflexivity.
Defined.

(** * Part III: further properties of the code *)

(** ** The refresh loop over many iterations *)

Section LoopRuns.

Lemma update_app c st ups1 ups2 :
  Part000.update c st (ups1 ++ ups2)
  = (fst (Part000.update c (fst (Part000.update c st ups1)) ups2),
     snd (Part000.update c st ups1)
       ++ snd (Part000.update c (fst (Part000.update c st ups1)) ups2)).
Proof.
  revert st. induction ups1 as [|up ups1 IH]; intros st.
  - simpl. now destruct (Part000.update c st ups2).
  - rewrite <- app_comm_cons, !update_cons, IH. simpl. now rewrite app_assoc.
Qed.

Lemma K_update_app c st ups1 ups2 :
  Kaleidoscope.update c st (ups1 ++ ups2)
  = (fst (Kaleidoscope.update c (fst (Kaleidoscope.update c st ups1)) ups2),
     snd (Kaleidoscope.update c st ups1)
       ++ snd (Kaleidoscope.update c (fst (Kaleidoscope.update c st ups1)) ups2)).
Proof.
  revert st. induction ups1 as [|up ups1 IH]; intros st.
  - simpl. now destruct (Kaleidoscope.update c st ups2).
  - rewrite <- app_comm_cons, !K_update_cons, IH. simpl. now rewrite app_assoc.
Qed.

Lemma update_all_fail c st ups :
  forallb (fun up => negb (Part000.succeeds c up)) ups = true ->
  fst (Part000.update c st ups) = st.
Proof.
  induction ups as [|up ups IH]; intros Hf; [reflexivity|].
  simpl in Hf. apply andb_true_iff in Hf as [Hup Hf].
  rewrite update_cons. simpl.
  unfold Part000.succeeds in Hup. unfold Part000.update_iteration.
  destruct (Part000.getMirrorInfo c up); [discriminate Hup|]. simpl. now apply IH.
Qed.

Lemma K_update_all_fail c st ups :
  forallb (fun up => negb (Kaleidoscope.succeeds c up)) ups = true ->
  fst (Kaleidoscope.update c st ups) = st.
Proof.
  induction ups as [|up ups IH]; intros Hf; [reflexivity|].
  simpl in Hf. apply andb_true_iff in Hf as [Hup Hf].
  rewrite K_update_cons. simpl.
  unfold Kaleidoscope.succeeds in Hup. unfold Kaleidoscope.update_iteration.
  destruct (Kaleidoscope.getData c up); [discriminate Hup|]. simpl. now apply IH.
Qed.

End LoopRuns.

(** X1. Whatever happened before, after a run of the refresh loop the
    value holds the snapshot built from the last fetch that succeeded; the
    failures after it change nothing. *)
Theorem X1_store_holds_last_success :
  (forall c st before up after s,
      Kaleidoscope.getData c up = Ok s ->
      forallb (fun up' => negb (Kaleidoscope.succeeds c up')) after = true ->
      fst (Kaleidoscope.update c st (before ++ up :: after)) = Some s)
  /\
  (forall c st before up after s,
      Part000.getMirrorInfo c up = Ok s ->
      forallb (fun up' => negb (Part000.succeeds c up')) after = true ->
      fst (Part000.update c st (before ++ up :: after))
      = {| Part000.status := Some s; Part000.once := true |}).
Proof.
  split; intros c st before up after s Hup Hafter.
  - rewrite K_update_app. cbn [fst]. rewrite K_update_cons. cbn [fst].
    rewrite K_update_all_fail by assumption.
    unfold Kaleidoscope.update_iteration. now rewrite Hup.
  - rewrite update_app. cbn [fst]. rewrite update_cons. cbn [fst].
    rewrite update_all_fail by assumption.
    unfold Part000.update_iteration. now rewrite Hup.
Qed.

Lemma X1_store_holds_last_success_witness :
  fst (Part000.update Scenario.conf
         {| Part000.status := None; Part000.once := false |}
         ([Part000.Decoded (Scenario.payload [Scenario.entry1])]
            ++ Part000.Decoded Scenario.upstream
            :: [Part000.TransportError "connection refused";
                Part000.DecodeError "unexpected EOF"]))
  = {| Part000.status := Some Scenario.built; Part000.once := true |}.
Proof.
  apply (proj2 X1_store_holds_last_success); reflexivity.
Defined.

Lemma K_iteration_counts c st up :
  let events := snd (Kaleidoscope.update_iteration c st up) in
  length (List.filter Kaleidoscope.is_Fetch events) = 1%nat
  /\ length (List.filter Kaleidoscope.is_Store events)
     = (if Kaleidoscope.succeeds c up then 1 else 0)%nat
  /\ length (List.filter Kaleidoscope.is_TickerRecv events)
     = (if Kaleidoscope.succeeds c up then 1 else 0)%nat.
Proof.
  unfold Kaleidoscope.update_iteration, Kaleidoscope.succeeds.
  destruct (Kaleidoscope.getData c up); repeat split.
Qed.

Lemma iteration_counts c st up :
  let events := snd (Part000.update_iteration c st up) in
  length (List.filter Part000.is_Fetch events) = 1%nat
  /\ length (List.filter Part000.is_Store events)
     = (if Part000.succeeds c up then 1 else 0)%nat
  /\ length (List.filter Part000.is_TickerRecv events)
     = (if Part000.succeeds c up then 1 else 0)%nat
  /\ length (List.filter Part000.is_DoneSend events)
     = (if negb (Part000.once st) && Part000.succeeds c up then 1 else 0)%nat
  /\ Part000.once (fst (Part000.update_iteration c st up))
     = Part000.once st || Part000.succeeds c up.
Proof.
  unfold Part000.update_iteration, Part000.succeeds.
  destruct (Part000.getMirrorInfo c up); [destruct (Part000.once st)|];
    cbn; rewrite ?andb_false_r, ?orb_false_r; repeat split.
Qed.

(** X2. In a run of the refresh loop every iteration fetches once, and
    the loop stores a snapshot and then waits for the ticker exactly as
    often as a fetch succeeds. *)
Theorem X2_loop_event_counts :
  (forall c st ups,
      let events := snd (Kaleidoscope.update c st ups) in
      length (List.filter Kaleidoscope.is_Fetch events) = length ups
      /\ length (List.filter Kaleidoscope.is_Store events)
         = length (List.filter (Kaleidoscope.succeeds c) ups)
      /\ length (List.filter Kaleidoscope.is_TickerRecv events)
         = length (List.filter (Kaleidoscope.succeeds c) ups))
  /\
  (forall c st ups,
      let events := snd (Part000.update c st ups) in
      length (List.filter Part000.is_Fetch events) = length ups
      /\ length (List.filter Part000.is_Store events)
         = length (List.filter (Part000.succeeds c) ups)
      /\ length (List.filter Part000.is_TickerRecv events)
         = length (List.filter (Part000.succeeds c) ups)).
Proof.
  split; intros c st ups; cbv zeta; revert st.
  - induction ups as [|up ups IH]; intros st; [repeat split|].
    rewrite K_update_cons. cbn [snd]. rewrite !List.filter_app, !length_app.
    destruct (IH (fst (Kaleidoscope.update_iteration c st up))) as (-> & -> & ->).
    destruct (K_iteration_counts c st up) as (-> & -> & ->).
    cbn [List.filter]. destruct (Kaleidoscope.succeeds c up); repeat split.
  - induction ups as [|up ups IH]; intros st; [repeat split|].
    rewrite update_cons. cbn [snd]. rewrite !List.filter_app, !length_app.
    destruct (IH (fst (Part000.update_iteration c st up))) as (-> & -> & ->).
    destruct (iteration_counts c st up) as (-> & -> & -> & _).
    cbn [List.filter]. destruct (Part000.succeeds c up); repeat split.
Qed.

(** X3. The refresh loop of part_000 sends on [done] at most once: once if
    [once] has not run yet and some fetch of the run succeeds, never
    otherwise; and [once] has run after the run exactly if it had before or
    some fetch succeeded. *)
Theorem X3_done_sent_once :
  forall c st ups,
    length (List.filter Part000.is_DoneSend (snd (Part000.update c st ups)))
    = (if negb (Part000.once st) && existsb (Part000.succeeds c) ups then 1 else 0)%nat
    /\ Part000.once (fst (Part000.update c st ups))
       = Part000.once st || existsb (Part000.succeeds c) ups.
Proof.
  intros c st ups. revert st.
  induction ups as [|up ups IH]; intros st.
  - simpl. now rewrite andb_false_r, orb_false_r.
  - rewrite update_cons. cbn [fst snd existsb].
    rewrite List.filter_app, length_app.
    destruct (IH (fst (Part000.update_iteration c st up))) as [-> ->].
    destruct (iteration_counts c st up) as (_ & _ & _ & -> & ->).
    destruct (Part000.once st), (Part000.succeeds c up),
      (existsb (Part000.succeeds c) ups); split; reflexivity.
Qed.

(** ** The handlers of kaleidoscope.go *)

Section KaleidoscopeHandlers.
Import Go.

Lemma Intn_range draw n :
  0 < n -> exists pick, Intn draw n = Some pick /\ 0 <= pick < n.
Proof.
  intros Hn. unfold Intn. destruct (Z.leb_spec n 0) as [Hle|_]; [lia|].
  eexists. split; [reflexivity|]. apply Z.mod_pos_bound. exact Hn.
Qed.

(** A pick of [rand.Intn(len(l))] is an index of [l]. *)
Lemma pick_in_range {A} (l : list A) draw :
  l <> [] ->
  exists pick x,
    Intn draw (Z.of_nat (length l)) = Some pick
    /\ nth_error l (Z.to_nat pick) = Some x /\ In x l.
Proof.
  intros Hne.
  destruct (Intn_range draw (Z.of_nat (length l))) as (pick & Hp & Hr).
  { destruct l; [contradiction|simpl; lia]. }
  destruct (nth_error l (Z.to_nat pick)) as [x|] eqn:E.
  - exists pick, x. repeat split; try assumption. now apply nth_error_In in E.
  - apply nth_error_None in E. lia.
Qed.

Lemma length_Z_zero {A} (l : list A) : (Z.of_nat (length l) =? 0) = true <-> l = [].
Proof.
  destruct l; simpl; split; intros H; try reflexivity; try discriminate H.
Qed.

Lemma K_countryRe_inv p m code :
  Kaleidoscope.countryRe p = Some (m, code) ->
  exists pre a b,
    p = (pre ++ String "/" (String a (String b "")))%string
    /\ Kaleidoscope.is_letter a = true /\ Kaleidoscope.is_letter b = true
    /\ m = String "/" (String a (String b ""))
    /\ code = String a (String b "").
Proof.
  induction p as [|c r IH]; [discriminate|].
  cbn [Kaleidoscope.countryRe].
  assert (Hrec : Kaleidoscope.countryRe r = Some (m, code) ->
                 exists pre a b,
                   String c r = (pre ++ String "/" (String a (String b "")))%string
                   /\ Kaleidoscope.is_letter a = true /\ Kaleidoscope.is_letter b = true
                   /\ m = String "/" (String a (String b ""))
                   /\ code = String a (String b "")).
  { intros Hr. destruct (IH Hr) as (pre & a & b & -> & Ha & Hb & -> & ->).
    exists (String c pre), a, b. repeat split; assumption. }
  destruct r as [|a [|b [|d r]]]; try exact Hrec.
  destruct (Ascii.eqb_spec c "/"%char) as [->|]; [|discriminate].
  destruct (Kaleidoscope.is_letter a) eqn:Ha; [|discriminate].
  destruct (Kaleidoscope.is_letter b) eqn:Hb; [|discriminate].
  intros [= <- <-]. exists "", a, b. repeat split; assumption.
Qed.

Lemma upper_ascii_letter a :
  Kaleidoscope.is_letter a = true ->
  is_upper (upper_ascii a) = true
  /\ Kaleidoscope.is_letter (upper_ascii a) = true
  /\ upper_ascii (upper_ascii a) = upper_ascii a.
Proof.
  destruct a as [[] [] [] [] [] [] [] []]; intros H;
    try discriminate H; repeat split.
Qed.

End KaleidoscopeHandlers.

(** X4. In kaleidoscope.go the pattern of the country handler matches
    exactly the paths that end with a slash and two ASCII letters; the match
    is that ending and the code its two letters. A path that goes on after
    the code is not matched at the code. *)
Theorem X4_country_pattern_is_a_suffix :
  forall p m code,
    Kaleidoscope.countryRe p = Some (m, code)
    <-> exists pre a b,
        p = (pre ++ String "/" (String a (String b "")))%string
        /\ Kaleidoscope.is_letter a = true /\ Kaleidoscope.is_letter b = true
        /\ m = String "/" (String a (String b ""))
        /\ code = String a (String b "").
Proof.
  intros p m code. split.
  - apply K_countryRe_inv.
  - intros (pre & a & b & -> & Ha & Hb & -> & ->). now apply K_countryRe_suffix.
Qed.

(** X5. On a snapshot with mirrors the global handler of kaleidoscope.go
    never fails: whatever the random source draws, it redirects with 302 to
    the URL of a mirror of the snapshot, as it stands (the request path is
    not appended); and every mirror of the snapshot is the target for some
    draw. *)
Theorem X5_global_handler_picks_a_mirror :
  forall status path,
    Kaleidoscope.URLs status <> [] ->
    (forall draw, exists m,
        In m (Kaleidoscope.URLs status)
        /\ Kaleidoscope.globalHandler (Some status) draw (Scenario.get path)
           = ([Go.Redirect (URL m) 302], Go.Return))
    /\ (forall m, In m (Kaleidoscope.URLs status) ->
        exists draw,
          Kaleidoscope.globalHandler (Some status) draw (Scenario.get path)
          = ([Go.Redirect (URL m) 302], Go.Return)).
Proof.
  intros status path Hne.
  assert (Hz : (Z.of_nat (length (Kaleidoscope.URLs status)) =? 0) = false).
  { destruct (Kaleidoscope.URLs status); [contradiction|reflexivity]. }
  split.
  - intros draw.
    destruct (pick_in_range (Kaleidoscope.URLs status) draw Hne)
      as (pick & m & Hp & Hn & Hin).
    exists m. split; [exact Hin|].
    unfold Kaleidoscope.globalHandler, Kaleidoscope.methodOnly,
      Kaleidoscope.makeGlobalHandler. simpl. now rewrite Hz, Hp, Hn.
  - intros m Hin. apply In_nth_error in Hin as [i Hi].
    assert (Hlt : (i < length (Kaleidoscope.URLs status))%nat).
    { apply nth_error_Some. now rewrite Hi. }
    exists (Z.of_nat i).
    unfold Kaleidoscope.globalHandler, Kaleidoscope.methodOnly,
      Kaleidoscope.makeGlobalHandler. simpl. rewrite Hz. unfold Go.Intn.
    destruct (Z.leb_spec (Z.of_nat (length (Kaleidoscope.URLs status))) 0); [lia|].
    rewrite Z.mod_small by lia. now rewrite Nat2Z.id, Hi.
Qed.

Lemma X5_global_handler_picks_a_mirror_witness :
  Kaleidoscope.URLs (Scenario.kstatus [Scenario.entry1; Scenario.entry4]) <> []
  /\ exists m,
      In m [Scenario.entry1; Scenario.entry4]
      /\ Kaleidoscope.globalHandler
           (Some (Scenario.kstatus [Scenario.entry1; Scenario.entry4])) 5
           (Scenario.get "/global")
         = ([Go.Redirect (URL m) 302], Go.Return).
Proof.
  split; [discriminate|].
  apply (X5_global_handler_picks_a_mirror
           (Scenario.kstatus [Scenario.entry1; Scenario.entry4]) "/global").
  discriminate.
Defined.

(** X6. On a snapshot with mirrors the country handler of kaleidoscope.go
    never fails on a path that carries a code: it answers 404 when no mirror
    of the snapshot has that code (in uppercase) and a completion of at
    least 1.0, and otherwise redirects with 302 to the URL of such a
    mirror. *)
Theorem X6_country_handler_picks_in_country :
  forall status draw p m code,
    Kaleidoscope.URLs status <> [] ->
    Kaleidoscope.countryRe p = Some (m, code) ->
    (Kaleidoscope.countryMirrors status (Go.ToUpper code) = []
     /\ Kaleidoscope.countryHandler (Some status) draw (Scenario.get p)
        = ([Go.NotFound], Go.Return))
    \/ (exists x,
           In x (Kaleidoscope.URLs status)
           /\ CountryCode x = Go.ToUpper code
           /\ Float64.geb (Completion x) 1%float = true
           /\ Kaleidoscope.countryHandler (Some status) draw (Scenario.get p)
              = ([Go.Redirect (URL x) 302], Go.Return)).
Proof.
  intros status draw p m code Hne Hre.
  assert (Hz : (Z.of_nat (length (Kaleidoscope.URLs status)) =? 0) = false).
  { destruct (Kaleidoscope.URLs status); [contradiction|reflexivity]. }
  unfold Kaleidoscope.countryHandler, Kaleidoscope.methodOnly,
    Kaleidoscope.makeCountryHandler. simpl. rewrite Hre, Hz.
  destruct (Kaleidoscope.countryMirrors status (Go.ToUpper code)) as [|y res] eqn:Hres.
  - left. split; reflexivity.
  - right. rewrite <- Hres.
    assert (Hne' : Kaleidoscope.countryMirrors status (Go.ToUpper code) <> [])
      by (rewrite Hres; discriminate).
    destruct (pick_in_range _ draw Hne') as (pick & x & Hp & Hn & Hin).
    exists x. unfold Kaleidoscope.countryMirrors in Hin.
    apply filter_In in Hin as [Hin Hx]. apply andb_true_iff in Hx as [Hc Hx].
    apply String.eqb_eq in Hc. repeat split; try assumption.
    rewrite Hp, Hn.
    destruct (Z.of_nat (length (Kaleidoscope.countryMirrors status (Go.ToUpper code))) =? 0)
      eqn:Hz'; [|reflexivity].
    apply length_Z_zero in Hz'. contradiction.
Qed.

Lemma X6_country_handler_picks_in_country_witness :
  let status := Scenario.kstatus [Scenario.entry1; Scenario.entry4] in
  (Kaleidoscope.countryMirrors status (Go.ToUpper "de") = []
   /\ Kaleidoscope.countryHandler (Some status) 3 (Scenario.get "/country/de")
      = ([Go.NotFound], Go.Return))
  \/ (exists x,
         In x (Kaleidoscope.URLs status)
         /\ CountryCode x = Go.ToUpper "de"
         /\ Float64.geb (Completion x) 1%float = true
         /\ Kaleidoscope.countryHandler (Some status) 3 (Scenario.get "/country/de")
            = ([Go.Redirect (URL x) 302], Go.Return)).
Proof.
  intros status.
  apply (X6_country_handler_picks_in_country status 3 "/country/de" "/de" "de").
  - discriminate.
  - reflexivity.
Defined.

(** X7. The country handler of kaleidoscope.go does not tell the case of
    the code apart: a path that ends with a code in letters of either case
    is answered like the path with the code in uppercase, whatever the
    snapshot and the draw. *)
Theorem X7_country_code_case_is_ignored :
  forall val draw pre a b,
    Kaleidoscope.is_letter a = true -> Kaleidoscope.is_letter b = true ->
    Kaleidoscope.countryHandler val draw
      (Scenario.get (pre ++ String "/" (String a (String b "")))%string)
    = Kaleidoscope.countryHandler val draw
        (Scenario.get (pre ++ String "/"
                         (String (Go.upper_ascii a) (String (Go.upper_ascii b) "")))%string).
Proof.
  intros val draw pre a b Ha Hb.
  destruct (upper_ascii_letter a Ha) as (_ & Ha' & Ia).
  destruct (upper_ascii_letter b Hb) as (_ & Hb' & Ib).
  unfold Kaleidoscope.countryHandler, Kaleidoscope.methodOnly,
    Kaleidoscope.makeCountryHandler. cbn [Go.Method Go.Path Scenario.get].
  rewrite (K_countryRe_suffix pre a b Ha Hb).
  rewrite (K_countryRe_suffix pre _ _ Ha' Hb').
  cbn [Go.ToUpper]. now rewrite Ia, Ib.
Qed.

Lemma X7_country_code_case_is_ignored_witness :
  Kaleidoscope.countryHandler (Some (Scenario.kstatus [Scenario.entry1])) 0
    (Scenario.get "/country/us")
  = Kaleidoscope.countryHandler (Some (Scenario.kstatus [Scenario.entry1])) 0
      (Scenario.get "/country/US").
Proof.
  apply (X7_country_code_case_is_ignored
           (Some (Scenario.kstatus [Scenario.entry1])) 0 "/country" "u"%char "s"%char);
    reflexivity.
Defined.

(** ** The snapshot of part_000 and its selectors *)

Section Part000Snapshot.
Import Part000.

Lemma ltb_irrefl a : Float64.ltb a a = false.
Proof.
  destruct (Float64.ltb a a) eqn:E; [|reflexivity].
  now rewrite (ltb_asym a a E) in E.
Qed.

Lemma built_is c m s :
  getMirrorInfo c (Decoded m) = Ok s ->
  Global s = List.filter (retained c) (Go.Stable (Go.Reverse ByScore_Less) (Global m))
  /\ (forall code, bucket (Countries s) code = List.filter (has_code code) (Global s))
  /\ no_empty_bucket (Countries s)
  /\ Cutoff s = Cutoff m /\ CheckFrequency s = CheckFrequency m
  /\ NumChecks s = NumChecks m /\ LastCheck s = LastCheck m /\ Version s = Version m.
Proof.
  intros Hs. destruct (getMirrorInfo_Decoded c m) as (s' & Hs' & HG & HB & HN).
  rewrite Hs in Hs'. injection Hs' as <-.
  repeat split; try assumption; simpl in Hs; now injection Hs as <-.
Qed.

Lemma built_sorted c m s :
  Forall (fun x => Float64.is_nan (Score x) = false) (Global m) ->
  getMirrorInfo c (Decoded m) = Ok s ->
  StronglySorted (fun earlier later => Float64.ltb (Score earlier) (Score later) = false)
                 (Global s).
Proof.
  intros Hnan Hs. destruct (built_is c m s Hs) as (-> & _).
  apply StronglySorted_filter.
  apply (Stable_sorted (Go.Reverse ByScore_Less)
                       (fun x => Float64.is_nan (Score x) = false)).
  - intros x y. unfold Go.Reverse, ByScore_Less. apply ltb_asym.
  - intros x y z Hy Hxy Hyz. unfold Go.Reverse, ByScore_Less in *.
    now apply ltb_neg_trans with (b := Score y).
  - exact Hnan.
Qed.

Lemma built_In c m s x :
  getMirrorInfo c (Decoded m) = Ok s ->
  In x (Global s) <-> In x (Global m) /\ retained c x = true.
Proof.
  intros Hs. destruct (built_is c m s Hs) as (-> & _).
  rewrite filter_In. split; intros [Hin Hr]; (split; [|exact Hr]).
  - eapply Permutation_in; [apply Stable_perm|exact Hin].
  - eapply Permutation_in; [symmetry; apply Stable_perm|exact Hin].
Qed.

(** The head of a sorted list is not below any of its elements. *)
Lemma sorted_head_best best rest x :
  StronglySorted (fun earlier later => Float64.ltb (Score earlier) (Score later) = false)
                 (best :: rest) ->
  In x (best :: rest) -> Float64.ltb (Score best) (Score x) = false.
Proof.
  intros Hs [<-|Hin]; [apply ltb_irrefl|].
  inversion Hs as [|? ? _ Hall]; subst.
  rewrite List.Forall_forall in Hall. now apply Hall.
Qed.

Lemma lookup_bucket (idx : gmap string (list Mirror)) code :
  no_empty_bucket idx ->
  idx !! code = match bucket idx code with [] => None | l => Some l end.
Proof.
  intros Hne. unfold bucket.
  destruct (idx !! code) as [l|] eqn:E; simpl; [|reflexivity].
  destruct l; [now apply Hne in E|reflexivity].
Qed.

Lemma index_ext (idx1 idx2 : gmap string (list Mirror)) :
  no_empty_bucket idx1 -> no_empty_bucket idx2 ->
  (forall code, bucket idx1 code = bucket idx2 code) ->
  idx1 = idx2.
Proof.
  intros H1 H2 Hb. apply map_eq. intros code.
  now rewrite (lookup_bucket idx1 code H1), (lookup_bucket idx2 code H2), Hb.
Qed.

Lemma filter_all_true {A} (f : A -> bool) (l : list A) :
  Forall (fun x => f x = true) l -> List.filter f l = l.
Proof.
  induction 1 as [|x l Hx _ IH]; simpl; [reflexivity|]. now rewrite Hx, IH.
Qed.

Lemma filter_none_true {A} (f : A -> bool) (l : list A) :
  (forall x, In x l -> f x = false) -> List.filter f l = [].
Proof.
  induction l as [|x l IH]; intros H; simpl; [reflexivity|].
  rewrite (H x (or_introl eq_refl)). apply IH. intros y Hy. apply H. now right.
Qed.

Lemma MirrorStatus_ext (s1 s2 : MirrorStatus) :
  Cutoff s1 = Cutoff s2 -> CheckFrequency s1 = CheckFrequency s2 ->
  NumChecks s1 = NumChecks s2 -> LastCheck s1 = LastCheck s2 ->
  Version s1 = Version s2 -> Global s1 = Global s2 -> Countries s1 = Countries s2 ->
  s1 = s2.
Proof. destruct s1, s2; simpl; intros; subst; reflexivity. Qed.

End Part000Snapshot.

(** X8. On a snapshot built by [getMirrorInfo] from a payload of numbers the
    selectors of part_000 return the best-ranked mirror: the global selector
    a mirror of the snapshot whose score no mirror of the snapshot exceeds,
    the country selector a mirror whose score no mirror of the snapshot with
    the same country code exceeds. *)
Theorem X8_selectors_return_highest_score :
  forall c m s,
    Forall (fun x => Float64.is_nan (Score x) = false) (Part000.Global m) ->
    Part000.getMirrorInfo c (Part000.Decoded m) = Ok s ->
    (forall r best r',
        Part000.globalSelector s r = Part000.Selected best r' ->
        In best (Part000.Global s)
        /\ forall x, In x (Part000.Global s) ->
                     Float64.ltb (Score best) (Score x) = false)
    /\ (forall r best r',
           Part000.countrySelector s r = Part000.Selected best r' ->
           In best (Part000.Global s)
           /\ forall x, In x (Part000.Global s) ->
                        CountryCode x = CountryCode best ->
                        Float64.ltb (Score best) (Score x) = false).
Proof.
  intros c m s Hnan Hs.
  pose proof (built_sorted c m s Hnan Hs) as Hsorted.
  destruct (built_is c m s Hs) as (_ & HB & _).
  split; intros r best r' Hsel.
  - unfold Part000.globalSelector in Hsel.
    destruct (Part000.Global s) as [|b rest] eqn:EG; [discriminate Hsel|].
    injection Hsel as <- _. split; [now left|].
    intros x Hx. now apply sorted_head_best with (rest := rest).
  - unfold Part000.countrySelector in Hsel.
    destruct (Part000.countryRe (Go.Path r)) as [[res0 res1]|]; [|discriminate Hsel].
    destruct (Part000.Countries s !! Go.ToUpper res1) as [country|] eqn:E;
      [|discriminate Hsel].
    destruct country as [|b rest]; [discriminate Hsel|].
    injection Hsel as <- _.
    specialize (HB (Go.ToUpper res1)). unfold Part000.bucket in HB.
    rewrite E in HB. simpl in HB.
    assert (Hb : In b (List.filter (Part000.has_code (Go.ToUpper res1)) (Part000.Global s))).
    { rewrite <- HB. now left. }
    apply filter_In in Hb as [Hb Hcode]. split; [exact Hb|].
    intros x Hx Hsame.
    apply sorted_head_best with (rest := rest); [|rewrite HB].
    + rewrite HB. now apply StronglySorted_filter.
    + apply filter_In. split; [exact Hx|].
      unfold Part000.has_code in *. now rewrite Hsame.
Qed.

Lemma X8_selectors_return_highest_score_witness :
  Part000.countrySelector Scenario.built (Scenario.get "/de/core")
  = Part000.Selected Scenario.entry4 (Scenario.get "core")
  /\ In Scenario.entry4 (Part000.Global Scenario.built)
  /\ forall x, In x (Part000.Global Scenario.built) ->
               CountryCode x = CountryCode Scenario.entry4 ->
               Float64.ltb (Score Scenario.entry4) (Score x) = false.
Proof.
  split; [reflexivity|].
  refine (proj2 (X8_selectors_return_highest_score Scenario.conf Scenario.upstream
                   Scenario.built _ eq_refl)
                (Scenario.get "/de/core") Scenario.entry4 (Scenario.get "core") eq_refl).
  repeat constructor.
Defined.

(** X9. On a snapshot built by [getMirrorInfo] the country selector fails
    with "country not found" exactly when no upstream mirror that is
    retained has the requested code in uppercase; [redirector] answers that
    failure with 404. *)
Theorem X9_country_not_found_iff_no_mirror `{Go.NetURL} :
  forall c m s p res0 code,
    Part000.getMirrorInfo c (Part000.Decoded m) = Ok s ->
    Part000.countryRe p = Some (res0, code) ->
    (Part000.countrySelector s (Scenario.get p) = Part000.Failed "country not found"
     <-> forall x, In x (Part000.Global m) -> Part000.retained c x = true ->
                   CountryCode x <> Go.ToUpper code)
    /\ (Part000.countrySelector s (Scenario.get p) = Part000.Failed "country not found" ->
        Part000.Global s <> [] ->
        Part000.redirector (Some s) Part000.countrySelector (Scenario.get p)
        = ([Go.Error "country not found" 404], Go.Return)).
Proof.
  intros c m s p res0 code Hs Hre.
  destruct (built_is c m s Hs) as (_ & HB & HN & _).
  split.
  - unfold Part000.countrySelector. simpl. rewrite Hre.
    rewrite (lookup_bucket _ (Go.ToUpper code) HN), HB.
    split.
    + intros Hsel x Hx Hr Hc.
      assert (Hin : In x (List.filter (Part000.has_code (Go.ToUpper code)) (Part000.Global s))).
      { apply filter_In. split.
        - apply (built_In c m s x Hs). now split.
        - unfold Part000.has_code. now apply String.eqb_eq. }
      destruct (List.filter _ _) as [|y l]; [destruct Hin|discriminate Hsel].
    + intros Hno.
      rewrite filter_none_true; [reflexivity|].
      intros x Hx. apply (built_In c m s x Hs) in Hx as [Hx Hr].
      unfold Part000.has_code. apply String.eqb_neq. now apply Hno.
  - intros Hsel Hne. unfold Part000.redirector. rewrite Hsel. simpl.
    destruct (Part000.Global s); [contradiction|reflexivity].
Qed.

Lemma X9_country_not_found_iff_no_mirror_witness :
  Part000.redirector (H := SimpleURL.net_url) (Some Scenario.built)
    Part000.countrySelector (Scenario.get "/zz")
  = ([Go.Error "country not found" 404], Go.Return).
Proof.
  refine (proj2 (X9_country_not_found_iff_no_mirror (H := SimpleURL.net_url)
                   Scenario.conf Scenario.upstream Scenario.built
                   "/zz" "/zz" "zz" eq_refl eq_refl) eq_refl _).
  discriminate.
Defined.

(** X10. When no upstream mirror is a complete HTTP mirror, [getMirrorInfo]
    still succeeds: the snapshot has no mirror and no country, and
    [redirector] answers every GET on it with 500, whatever the selector and
    the path. *)
Theorem X10_nothing_retained_gives_500 `{Go.NetURL} :
  forall c m,
    (forall x, In x (Part000.Global m) -> Part000.retained c x = false) ->
    exists s,
      Part000.getMirrorInfo c (Part000.Decoded m) = Ok s
      /\ Part000.Global s = []
      /\ Part000.Countries s = ∅
      /\ forall sel path,
          Part000.redirector (Some s) sel (Scenario.get path)
          = ([Go.Error "Internal Server Error" 500], Go.Return).
Proof.
  intros c m Hnone.
  destruct (getMirrorInfo_Decoded c m) as (s & Hs & HG & HB & HN).
  exists s. split; [exact Hs|].
  assert (EG : Part000.Global s = []).
  { rewrite HG. apply filter_none_true. intros x Hx. apply Hnone.
    eapply Permutation_in; [apply Stable_perm|exact Hx]. }
  split; [exact EG|]. split.
  - apply map_empty. intros code.
    rewrite (lookup_bucket _ code HN), HB, EG. reflexivity.
  - intros sel path. now apply redirector_empty_snapshot.
Qed.

Lemma X10_nothing_retained_gives_500_witness :
  exists s,
    Part000.getMirrorInfo Scenario.conf
      (Part000.Decoded (Scenario.payload [Scenario.entry2; Scenario.entry3])) = Ok s
    /\ Part000.Global s = []
    /\ Part000.Countries s = ∅
    /\ forall sel path,
        Part000.redirector (H := SimpleURL.net_url) (Some s) sel (Scenario.get path)
        = ([Go.Error "Internal Server Error" 500], Go.Return).
Proof.
  apply (X10_nothing_retained_gives_500 (H := SimpleURL.net_url) Scenario.conf
           (Scenario.payload [Scenario.entry2; Scenario.entry3])).
  intros x [<-|[<-|[]]]; reflexivity.
Defined.

(** X11. The builders change nothing in a snapshot they have built: given
    its own result as the payload, [getData] returns it again, and so does
    [getMirrorInfo] when the scores are numbers (sorting a sorted list and
    filtering a filtered one leave it as it is, and the country index is
    rebuilt as it was). *)
Theorem X11_builders_are_idempotent :
  (forall c m s,
      Kaleidoscope.getData c (Kaleidoscope.Decoded m) = Ok s ->
      Kaleidoscope.getData c (Kaleidoscope.Decoded s) = Ok s)
  /\
  (forall c m s,
      Forall (fun x => Float64.is_nan (Score x) = false) (Part000.Global m) ->
      Part000.getMirrorInfo c (Part000.Decoded m) = Ok s ->
      Part000.getMirrorInfo c (Part000.Decoded s) = Ok s).
Proof.
  split.
  - intros c m s [= <-]. simpl. unfold Kaleidoscope.filterLoop.
    rewrite !K_filterLoop_newURLs. simpl.
    rewrite filter_all_true; [reflexivity|].
    apply List.Forall_forall. intros x Hx. apply filter_In in Hx. tauto.
  - intros c m s Hnan Hs.
    destruct (getMirrorInfo_Decoded c s) as (s2 & Hs2 & HG2 & HB2 & HN2).
    rewrite Hs2. f_equal.
    destruct (built_is c m s Hs) as (HG & HB & HN & _).
    destruct (built_is c s s2 Hs2) as (_ & _ & _ & E1 & E2 & E3 & E4 & E5).
    assert (Hret : Forall (fun x => Part000.retained c x = true) (Part000.Global s)).
    { apply List.Forall_forall. intros x Hx. rewrite HG in Hx.
      apply filter_In in Hx. tauto. }
    assert (Hok : Forall (fun x => Float64.is_nan (Score x) = false) (Part000.Global s)).
    { apply List.Forall_forall. intros x Hx.
      apply (built_In c m s x Hs) in Hx as [Hx _].
      rewrite List.Forall_forall in Hnan. now apply Hnan. }
    assert (Hst : Go.Stable (Go.Reverse Part000.ByScore_Less) (Part000.Global s)
                  = Part000.Global s).
    { symmetry.
      apply (Stable_characterised (Go.Reverse Part000.ByScore_Less)
               (fun x => Float64.is_nan (Score x) = false)).
      - intros x. apply ltb_irrefl.
      - intros x y. unfold Go.Reverse, Part000.ByScore_Less. apply ltb_asym.
      - intros x y z Hy Hxy Hyz. unfold Go.Reverse, Part000.ByScore_Less in *.
        now apply ltb_neg_trans with (b := Score y).
      - exact Hok.
      - reflexivity.
      - now apply (built_sorted c m s).
      - reflexivity. }
    assert (EG : Part000.Global s2 = Part000.Global s).
    { rewrite HG2, Hst. now apply filter_all_true. }
    apply MirrorStatus_ext; try assumption.
    apply index_ext; try assumption.
    intros code. now rewrite HB2, HB, EG.
Qed.

Lemma X11_builders_are_idempotent_witness :
  Part000.getMirrorInfo Scenario.conf (Part000.Decoded Scenario.built)
  = Ok Scenario.built.
Proof.
  apply (proj2 X11_builders_are_idempotent Scenario.conf Scenario.upstream Scenario.built).
  - repeat constructor.
  - reflexivity.
Defined.

Lemma filter_and_length_le {A} (f g : A -> bool) (l : list A) :
  (length (List.filter (fun x => f x && g x) l) <= length (List.filter f l))%nat
  /\ (length (List.filter (fun x => f x && g x) l) <= length (List.filter g l))%nat
  /\ (length (List.filter f l) <= length l)%nat.
Proof.
  induction l as [|x l (IH1 & IH2 & IH3)]; simpl; [lia|].
  destruct (f x), (g x); simpl; lia.
Qed.

Lemma filterLoop_counts c l st :
  Part000.httpCount (fold_left (Part000.filterStep c) l st)
  = Part000.httpCount st
    + Z.of_nat (length (List.filter (fun x => String.eqb (Protocol x) "http") l))
  /\ Part000.completeCount (fold_left (Part000.filterStep c) l st)
     = Part000.completeCount st
       + Z.of_nat (length (List.filter
                             (fun x => Float64.geb (Completion x) (Part000.minCompletion c)) l)).
Proof.
  revert st. induction l as [|x l IH]; intros st; simpl.
  - lia.
  - destruct (IH (Part000.filterStep c st x)) as [-> ->]. simpl.
    destruct (String.eqb _ _), (Float64.geb _ _); simpl length; lia.
Qed.

(** X12. The statistics of the filter loop: at its end [httpCount] is the
    number of upstream mirrors whose protocol is ["http"], [completeCount]
    the number of those at or above the completion threshold, and the
    number of retained mirrors exceeds neither of them, nor they the number
    of upstream mirrors. *)
Theorem X12_filter_statistics :
  (forall c urls,
      let st := Kaleidoscope.filterLoop c urls in
      Kaleidoscope.httpCount st
      = Z.of_nat (length (List.filter (fun x => String.eqb (Protocol x) "http") urls))
      /\ Kaleidoscope.completeCount st
         = Z.of_nat (length (List.filter
                       (fun x => Float64.geb (Completion x) (Kaleidoscope.minCompletion c))
                       urls))
      /\ Z.of_nat (length (Kaleidoscope.newURLs st)) <= Kaleidoscope.httpCount st
         <= Z.of_nat (length urls)
      /\ Z.of_nat (length (Kaleidoscope.newURLs st)) <= Kaleidoscope.completeCount st
         <= Z.of_nat (length urls))
  /\
  (forall c mirrors,
      let st := Part000.filterLoop c mirrors in
      Part000.httpCount st
      = Z.of_nat (length (List.filter (fun x => String.eqb (Protocol x) "http") mirrors))
      /\ Part000.completeCount st
         = Z.of_nat (length (List.filter
                       (fun x => Float64.geb (Completion x) (Part000.minCompletion c))
                       mirrors))
      /\ Z.of_nat (length (Part000.newMirrors st)) <= Part000.httpCount st
         <= Z.of_nat (length mirrors)
      /\ Z.of_nat (length (Part000.newMirrors st)) <= Part000.completeCount st
         <= Z.of_nat (length mirrors)).
Proof.
  split.
  - intros c urls st. unfold st, Kaleidoscope.filterLoop.
    destruct (K_filterLoop_counts c urls
                {| Kaleidoscope.newURLs := []; Kaleidoscope.httpCount := 0;
                   Kaleidoscope.completeCount := 0 |}) as [-> ->].
    rewrite K_filterLoop_newURLs. simpl. unfold Kaleidoscope.retained.
    pose proof (filter_and_length_le
                  (fun x => String.eqb (Protocol x) "http")
                  (fun x => Float64.geb (Completion x) (Kaleidoscope.minCompletion c))
                  urls) as (H1 & H2 & H3).
    pose proof (filter_and_length_le
                  (fun x => Float64.geb (Completion x) (Kaleidoscope.minCompletion c))
                  (fun _ => true) urls) as (_ & _ & H4).
    repeat split; lia.
  - intros c mirrors st. unfold st, Part000.filterLoop.
    destruct (filterLoop_counts c mirrors
                {| Part000.newMirrors := []; Part000.countries := ∅;
                   Part000.httpCount := 0; Part000.completeCount := 0 |}) as [-> ->].
    destruct (filterLoop_spec c mirrors
                {| Part000.newMirrors := []; Part000.countries := ∅;
                   Part000.httpCount := 0; Part000.completeCount := 0 |}) as (-> & _).
    simpl. unfold Part000.retained.
    pose proof (filter_and_length_le
                  (fun x => String.eqb (Protocol x) "http")
                  (fun x => Float64.geb (Completion x) (Part000.minCompletion c))
                  mirrors) as (H1 & H2 & H3).
    pose proof (filter_and_length_le
                  (fun x => Float64.geb (Completion x) (Part000.minCompletion c))
                  (fun _ => true) mirrors) as (_ & _ & H4).
    repeat split; lia.
Qed.

(** ** The handlers of part_000 *)

Section Part000Handlers.
Context `{Go.NetURL}.
Import Go Part000.

(** [redirector] makes one call and returns, unless the value is unset or
    the selector panics. *)
Lemma redirector_one_call s sel r :
  (forall msg, sel s r <> Panicked msg) ->
  exists call,
    redirector (Some s) sel r = ([call], Return)
    /\ In (status_of call) [302; 404; 405; 500].
Proof.
  intros Hsel. unfold redirector.
  destruct (negb (String.eqb (Method r) "GET")).
  { eexists. split; [reflexivity|]. simpl. tauto. }
  destruct (Z.of_nat (length (Global s)) =? 0).
  { eexists. split; [reflexivity|]. simpl. tauto. }
  destruct (sel s r) as [mirror r'|err|msg] eqn:E.
  - destruct (url_Parse (URL mirror)); eexists; (split; [reflexivity|]); simpl; tauto.
  - eexists. split; [reflexivity|]. simpl. tauto.
  - destruct (Hsel msg eq_refl).
Qed.

Lemma StripPrefix_one_call prefix (h : Handler) r :
  (forall r', exists call, h r' = ([call], Return)
                           /\ In (status_of call) [302; 404; 405; 500]) ->
  exists call,
    StripPrefix prefix h r = ([call], Return)
    /\ In (status_of call) [302; 404; 405; 500].
Proof.
  intros Hh. unfold StripPrefix.
  destruct (_ <? _)%nat; [apply Hh|].
  eexists. split; [reflexivity|]. simpl. tauto.
Qed.

Lemma serve_built_one_call c m s route r :
  getMirrorInfo c (Decoded m) = Ok s ->
  exists call,
    serve route (Some s) r = ([call], Return)
    /\ In (status_of call) [302; 404; 405; 500].
Proof.
  intros Hs. destruct (built_is c m s Hs) as (_ & _ & HN & _).
  destruct route; simpl; unfold countryHandler, globalHandler;
    apply StripPrefix_one_call; intros r'.
  - apply redirector_one_call. intros msg. unfold countrySelector.
    destruct (countryRe (Path r')) as [[res0 res1]|]; [|discriminate].
    destruct (Countries s !! ToUpper res1) as [country|] eqn:E; [|discriminate].
    destruct country; [now apply HN in E|discriminate].
  - unfold redirector.
    destruct (negb (String.eqb (Method r') "GET")).
    { eexists. split; [reflexivity|]. simpl. tauto. }
    destruct (Global s) as [|mirror rest] eqn:EG.
    { eexists. split; [reflexivity|]. simpl. tauto. }
    unfold globalSelector. rewrite EG. cbn.
    destruct (url_Parse (URL mirror)); eexists; (split; [reflexivity|]); simpl; tauto.
Qed.

(** What the value holds was built by [getMirrorInfo]. *)
Lemma step_keeps_built c sys a sys' :
  (forall s, status (loop sys) = Some s ->
             exists m, getMirrorInfo c (Decoded m) = Ok s) ->
  step c sys a sys' ->
  forall s, status (loop sys') = Some s ->
            exists m, getMirrorInfo c (Decoded m) = Ok s.
Proof.
  intros Hb Hstep. inversion Hstep; subst; try exact Hb.
  simpl. unfold update_iteration.
  destruct (getMirrorInfo c up) as [newM|e] eqn:E; simpl; [|exact Hb].
  intros s [= <-]. destruct up as [e|e|m]; try discriminate E. now exists m.
Qed.

Lemma run_serves_one_call c sys tr sys' :
  ready sys ->
  (forall s, status (loop sys) = Some s ->
             exists m, getMirrorInfo c (Decoded m) = Ok s) ->
  run c sys tr sys' ->
  forall route r out,
    In (Serve route r out) tr ->
    exists call, out = ([call], Return) /\ In (status_of call) [302; 404; 405; 500].
Proof.
  intros Hr Hb Hrun. induction Hrun as [|sys a sys' tr sys'' Hstep _ IH];
    intros route r out Hin; [destruct Hin|].
  destruct Hin as [->|Hin].
  - inversion Hstep; subst.
    destruct Hr as [Hs Hl].
    destruct (Hs (Hl ltac:(assumption))) as [s Es].
    destruct (Hb s Es) as [m Hm]. rewrite Es.
    now apply serve_built_one_call with (c := c) (m := m).
  - apply (IH (step_ready c sys a sys' Hr Hstep)
              (step_keeps_built c sys a sys' Hb Hstep) route r out Hin).
Qed.

End Part000Handlers.

(** X13. The handlers of part_000 never panic and never answer twice: in
    every run of the process from its start, whatever the upstream answers
    and whatever the requests (any method, any path, either route), each
    request served gets exactly one response, with status 302, 404, 405 or
    500. *)
Theorem X13_every_request_gets_one_response `{Go.NetURL} :
  forall c tr sys,
    Part000.run c Part000.boot tr sys ->
    forall route r out,
      In (Part000.Serve route r out) tr ->
      exists call,
        out = ([call], Go.Return)
        /\ In (Go.status_of call) [302; 404; 405; 500].
Proof.
  intros c tr sys Hrun.
  apply (run_serves_one_call c Part000.boot tr sys boot_ready); [|exact Hrun].
  simpl. discriminate.
Qed.

Lemma X13_every_request_gets_one_response_witness :
  let r := {| Go.Method := "POST"; Go.Path := "/country/../US" |} in
  let out := Part000.serve (H := SimpleURL.net_url) Part000.CountryRoute
                           (Some Scenario.built) r in
  exists call,
    out = ([call], Go.Return) /\ In (Go.status_of call) [302; 404; 405; 500].
Proof.
  intros r out.
  apply (X13_every_request_gets_one_response (H := SimpleURL.net_url) Scenario.conf
           [Part000.Refresh (Part000.Decoded Scenario.upstream);
            Part000.Listen;
            Part000.Serve Part000.CountryRoute r out]
           {| Part000.loop := {| Part000.status := Some Scenario.built;
                                 Part000.once := true |};
              Part000.serving := true |}
           ltac:(eapply Part000.run_cons; [apply Part000.step_refresh|];
                 eapply Part000.run_cons; [apply Part000.step_listen; reflexivity|];
                 eapply Part000.run_cons;
                   [apply (Part000.step_serve Scenario.conf
                             {| Part000.loop := {| Part000.status := Some Scenario.built;
                                                   Part000.once := true |};
                                Part000.serving := true |}
                             Part000.CountryRoute r); reflexivity|];
                 apply Part000.run_nil)
           Part000.CountryRoute r out).
  simpl. tauto.
Defined.

(** X14. The global route of part_000 redirects with 302 to the first
    mirror of the snapshot, its path joined with what follows [/global] in
    the request path; the choice does not depend on the request. *)
Theorem X14_global_redirect_target `{Go.NetURL} :
  forall s mirror others u rest,
    Part000.Global s = mirror :: others ->
    Go.url_Parse (URL mirror) = Some u ->
    Part000.globalHandler (Some s) (Scenario.get ("/global" ++ rest)%string)
    = ([Go.Redirect
          (Go.url_String (Go.url_setPath (Go.Join (Go.url_Path u) rest) u)) 302],
       Go.Return).
Proof.
  intros s mirror others u rest HG Hu.
  assert (Hlen : forall n : nat, (n <? S (S (S (S (S (S (S n)))))))%nat = true).
  { intros n. apply Nat.ltb_lt. lia. }
  unfold Part000.globalHandler, Go.StripPrefix, Go.TrimPrefix. simpl.
  change (String.append "" rest) with rest.
  assert (Hp : String.prefix "" rest = true) by now destruct rest.
  rewrite Hp, Hlen. unfold Part000.redirector, Part000.globalSelector. simpl.
  rewrite HG. simpl. now rewrite Hu.
Qed.

Lemma X14_global_redirect_target_witness :
  Part000.globalHandler (H := SimpleURL.net_url) (Some Scenario.built)
    (Scenario.get "/global/core/os/x86_64/foo.pkg")
  = ([Go.Redirect "https://mirror.example/archlinux/core/os/x86_64/foo.pkg" 302],
     Go.Return).
Proof.
  apply (X14_global_redirect_target (H := SimpleURL.net_url) Scenario.built
           Scenario.example_mirror [Scenario.entry1; Scenario.entry4]
           {| SimpleURL.Scheme := "https"; SimpleURL.Host := "mirror.example";
              SimpleURL.UPath := "/archlinux/" |}
           "/core/os/x86_64/foo.pkg"); reflexivity.
Defined.

(** X15. A request whose method is not GET is answered with 405 and
    nothing else, in both variants, on both routes, whatever the value
    holds, even before the first [Store]: the method is checked before the
    value is loaded. *)
Theorem X15_other_methods_get_405 `{Go.NetURL} :
  forall method path,
    method <> "GET" ->
    let r := {| Go.Method := method; Go.Path := path |} in
    (forall val draw,
        Kaleidoscope.globalHandler val draw r
        = ([Go.Error "Method Not Allowed" 405], Go.Return)
        /\ Kaleidoscope.countryHandler val draw r
           = ([Go.Error "Method Not Allowed" 405], Go.Return))
    /\ (forall val sel,
           Part000.redirector val sel r
           = ([Go.Error "Method Not Allowed" 405], Go.Return)).
Proof.
  intros method path Hm r.
  assert (E : negb (String.eqb method "GET") = true).
  { apply negb_true_iff. now apply String.eqb_neq. }
  split; [intros val draw; split|intros val sel].
  - unfold Kaleidoscope.globalHandler, Kaleidoscope.methodOnly. simpl. now rewrite E.
  - unfold Kaleidoscope.countryHandler, Kaleidoscope.methodOnly. simpl. now rewrite E.
  - unfold Part000.redirector. simpl. now rewrite E.
Qed.

Lemma X15_other_methods_get_405_witness :
  Kaleidoscope.globalHandler None 0 {| Go.Method := "POST"; Go.Path := "/global" |}
  = ([Go.Error "Method Not Allowed" 405], Go.Return)
  /\ Part000.globalHandler (H := SimpleURL.net_url) None
       {| Go.Method := "POST"; Go.Path := "/global/" |}
     = ([Go.Error "Method Not Allowed" 405], Go.Return).
Proof.
  destruct (X15_other_methods_get_405 (H := SimpleURL.net_url) "POST" "/global"
              ltac:(discriminate)) as [HK _].
  destruct (X15_other_methods_get_405 (H := SimpleURL.net_url) "POST" "/"
              ltac:(discriminate)) as [_ HP].
  split.
  - apply (HK None 0).
  - apply (HP None Part000.globalSelector).
Defined.

(** X16. On an empty snapshot the country handler of kaleidoscope.go
    answers a path that carries a code twice: it writes the 500 and, for
    want of a [return], goes on to find no mirror and writes the 404 as
    well; unlike the global handler it does not panic. *)
Theorem X16_country_handler_empty_snapshot :
  forall status draw p m code,
    Kaleidoscope.URLs status = [] ->
    Kaleidoscope.countryRe p = Some (m, code) ->
    Kaleidoscope.countryHandler (Some status) draw (Scenario.get p)
    = ([Go.Error "Internal Server Error" 500; Go.NotFound], Go.Return).
Proof.
  intros status draw p m code E Hre.
  unfold Kaleidoscope.countryHandler, Kaleidoscope.methodOnly,
    Kaleidoscope.makeCountryHandler, Kaleidoscope.countryMirrors.
  simpl. now rewrite Hre, E.
Qed.

Lemma X16_country_handler_empty_snapshot_witness :
  Kaleidoscope.countryHandler (Some (Scenario.kstatus [])) 4 (Scenario.get "/country/us")
  = ([Go.Error "Internal Server Error" 500; Go.NotFound], Go.Return).
Proof.
  apply (X16_country_handler_empty_snapshot (Scenario.kstatus []) 4
           "/country/us" "/us" "us"); reflexivity.
Defined.

(** X17. The country selector of part_000 removes from the request path
    exactly what the pattern matched: the match followed by the new path is
    the old path, and the method is left as it is. The mirror it selects
    depends on the code only, not on what follows it. *)
Theorem X17_country_selector_strips_the_match :
  forall s r mirror r',
    Part000.countrySelector s r = Part000.Selected mirror r' ->
    exists res0 code,
      Part000.countryRe (Go.Path r) = Some (res0, code)
      /\ Go.Path r = (res0 ++ Go.Path r')%string
      /\ Go.Method r' = Go.Method r
      /\ forall sub,
          Part000.countrySelector s
            {| Go.Method := Go.Method r;
               Go.Path := (String "/" code ++ String "/" sub)%string |}
          = Part000.Selected mirror {| Go.Method := Go.Method r; Go.Path := sub |}.
Proof.
  intros s r mirror r' Hsel. unfold Part000.countrySelector in Hsel.
  destruct (Part000.countryRe (Go.Path r)) as [[res0 code]|] eqn:Hre;
    [|discriminate Hsel].
  destruct (Part000.Countries s !! Go.ToUpper code) as [country|] eqn:E;
    [|discriminate Hsel].
  destruct country as [|b rest]; [discriminate Hsel|].
  injection Hsel as <- <-.
  exists res0, code. split; [reflexivity|].
  apply countryRe_spec in Hre
    as (a & b' & tail & Hp & La & Lb & -> & [[-> ->]|(sub0 & -> & ->)]).
  - rewrite Hp. repeat split.
    intros sub. unfold Part000.countrySelector. simpl. rewrite La, Lb. simpl.
    simpl in E. now rewrite E.
  - rewrite Hp. repeat split.
    intros sub. unfold Part000.countrySelector. simpl. rewrite La, Lb. simpl.
    simpl in E. now rewrite E.
Qed.

Lemma X17_country_selector_strips_the_match_witness :
  exists res0 code,
    Part000.countryRe "/us/core/os" = Some (res0, code)
    /\ "/us/core/os" = (res0 ++ "core/os")%string
    /\ forall sub,
        Part000.countrySelector Scenario.built
          {| Go.Method := "GET"; Go.Path := (String "/" code ++ String "/" sub)%string |}
        = Part000.Selected Scenario.example_mirror
            {| Go.Method := "GET"; Go.Path := sub |}.
Proof.
  destruct (X17_country_selector_strips_the_match Scenario.built
              (Scenario.get "/us/core/os") Scenario.example_mirror
              (Scenario.get "core/os") eq_refl)
    as (res0 & code & Hre & Hp & _ & Hsub).
  exists res0, code. repeat split; assumption.
Defined.
